(** * FreeCAD Render workbench: the Cycles and POV-Ray renderer plugins

    A shallow embedding of [renderers/Cycles.py] and [renderers/Povray.py]
    and the properties of their emission and invocation functions.

    Python values that the plugins only print are kept as they are; numbers
    of type [float] are idealised as real numbers, except where an
    exception depends on their range ([float] of an [int] too large, a
    product rounded to zero before a division); exceptions are an explicit
    result type; the objects that the plugins mutate (FreeCAD vectors) live in
    an explicit heap; console output and process spawning are an event
    trace. *)

From Stdlib Require Import Reals Lra Lia ZArith String Ascii List DecimalString.
From stdpp Require Import gmap strings.
Import ListNotations.

Open Scope string_scope.

(** ** Python runtime *)

Module Py.

(** The exceptions that the plugins raise or catch.  [FreeCADError] is
    [Base.FreeCADError], raised by the vector API. *)
Inductive exn : Type :=
  | KeyError
  | AssertionError
  | AttributeError
  | ValueError
  | TypeError
  | IndexError
  | ZeroDivisionError
  | OverflowError
  | RuntimeError
  | FreeCADError.

Inductive result (A : Type) : Type :=
  | Ok (a : A)
  | Raise (e : exn).

Arguments Ok {A} a.
Arguments Raise {A} e.

Definition bind {A B : Type} (r : result A) (k : A -> result B) : result B :=
  match r with
  | Ok a => k a
  | Raise e => Raise e
  end.

Definition raises {A : Type} (r : result A) : bool :=
  match r with
  | Ok _ => false
  | Raise _ => true
  end.

(** A dynamically typed value: what an attribute of a material or a colour
    channel can hold.  An object is its attribute dictionary. *)
#[warnings="-register-all"]
Inductive pyval : Type :=
  | PyNone
  | PyInt (z : Z)
  | PyFloat (x : R)
  | PyStr (s : string)
  | PyObj (attrs : list (string * pyval)).

(** [obj.name] *)
Fixpoint lookup_attr (attrs : list (string * pyval)) (name : string)
  : result pyval :=
  match attrs with
  | [] => Raise AttributeError
  | (k, v) :: rest =>
      if String.eqb k name then Ok v else lookup_attr rest name
  end.

Definition getattr (v : pyval) (name : string) : result pyval :=
  match v with
  | PyObj attrs => lookup_attr attrs name
  | _ => Raise AttributeError
  end.

(** Truth value of a string: non-empty. *)
Definition truthy (s : string) : bool :=
  match s with
  | EmptyString => false
  | String _ _ => true
  end.

(** [str(n)] for an [int]. *)
Definition str_int (z : Z) : string := NilZero.string_of_int (Z.to_int z).

(** The double quote and the line feed. *)
Definition dq : string := String (ascii_of_nat 34) EmptyString.
Definition nl : string := String (ascii_of_nat 10) EmptyString.

(** A text given by its lines, each ended by a line feed. *)
Fixpoint unlines (l : list string) : string :=
  match l with
  | [] => ""
  | s :: rest => s ++ nl ++ unlines rest
  end.

(** [sep.join(l)] *)
Fixpoint join (sep : string) (l : list string) : string :=
  match l with
  | [] => ""
  | [s] => s
  | s :: rest => s ++ sep ++ join sep rest
  end.

(** [p in s] for strings. *)
Fixpoint contains (p s : string) : bool :=
  String.prefix p s ||
  match s with
  | EmptyString => false
  | String _ s' => contains p s'
  end.

(** [s] between double quotes. *)
Definition q (s : string) : string := dq ++ s ++ dq.

(** [a / b] on floats. *)
Definition div (a b : R) : result R :=
  if Req_dec_T b 0 then Raise ZeroDivisionError else Ok (a / b)%R.

(** [a * b] on floats, as far as it can be zero: a product of magnitude
    at most [2^-1075], half the smallest positive float, is rounded to
    zero. *)
Definition mul (a b : R) : R :=
  if Rle_dec (Rabs (a * b)) (/ 2 ^ 1075) then 0%R else (a * b)%R.

(** [math.asin], defined on the interval from -1 to 1. *)
Definition math_asin (a : R) : result R :=
  if Rle_dec (-1) a then
    if Rle_dec a 1 then Ok (asin a) else Raise ValueError
  else Raise ValueError.

(** [math.atan2(a, b)]: the angle of the point of abscissa [b] and ordinate
    [a], between [-PI] and [PI]. *)
Definition atan2 (a b : R) : R :=
  if Rlt_dec 0 b then atan (a / b)
  else if Rlt_dec b 0 then
    if Rle_dec 0 a then atan (a / b) + PI else atan (a / b) - PI
  else if Rlt_dec 0 a then PI / 2
  else if Rlt_dec a 0 then - (PI / 2)
  else 0.

(** The library functions whose result depends on the interpreter or on the
    platform, and which the plugins call on run-time data:
    - [str_float x] is [str(x)] for a [float];
    - [float_of_str s] is [float(s)] for a string ([None]: [ValueError]);
    - [obj_str attrs] is [str(o)] for an object;
    - [py_format t args kwargs] is [t.format] applied to the positional
      arguments [args] and the keyword arguments [kwargs], for a template [t]
      that is data (a pass-through material, an already formatted fragment);
    - [indent text prefix] is [textwrap.indent];
    - [splitext path] is [os.path.splitext]. *)
Class PyLib : Type := {
  str_float : R -> string;
  float_of_str : string -> option R;
  obj_str : list (string * pyval) -> string;
  py_format : string -> list pyval -> list (string * pyval) -> result string;
  indent : string -> string -> string;
  splitext : string -> string * string
}.

Section Conversions.
Context `{PyLib}.

(** [str(v)], as [format] applies it to a field without format spec. *)
Definition str (v : pyval) : string :=
  match v with
  | PyNone => "None"
  | PyInt z => str_int z
  | PyFloat x => str_float x
  | PyStr s => s
  | PyObj attrs => obj_str attrs
  end.

(** [float(v)].  An [int] whose nearest float would be beyond the largest
    one, [2^1024 - 2^971], cannot be converted. *)
Definition float (v : pyval) : result R :=
  match v with
  | PyNone => Raise TypeError
  | PyInt z =>
      if (Z.abs z <? 2 ^ 1024 - 2 ^ 970)%Z then Ok (IZR z)
      else Raise OverflowError
  | PyFloat x => Ok x
  | PyStr s =>
      match float_of_str s with
      | Some x => Ok x
      | None => Raise ValueError
      end
  | PyObj _ => Raise TypeError
  end.
End Conversions.

End Py.

Import Py.

Notation "'let?' x ':=' r 'in' k" := (bind r (fun x => k))
  (at level 10, x name, r at level 100, k at level 200).

(** ** Host application *)

Module App.

(** What [FreeCAD.Console] prints and what [os.system] runs, in order. *)
Inductive event : Type :=
  | PrintMessage (s : string)
  | PrintWarning (s : string)
  | PrintError (s : string)
  | System (cmd : string).

Definition spawns (e : event) : bool :=
  match e with
  | System _ => true
  | _ => false
  end.

(** The number of external processes that a trace starts. *)
Fixpoint spawn_count (tr : list event) : nat :=
  match tr with
  | [] => 0
  | e :: rest => (if spawns e then 1 else 0) + spawn_count rest
  end.

(** The preference group [User parameter:BaseApp/Preferences/Mod/Render]. *)
Definition GetString (params : gmap string string) (key dflt : string)
  : string :=
  default dflt (params !! key).

(** The rendering project, of which [render] reads [PageResult] only. *)
Record project : Type := { PageResult : string }.

End App.

Import App.

(** ** Regular-expression substitution of a size flag *)

Module Re.

(** The character class [[0-9]]. *)
Definition is_digit (a : ascii) : bool :=
  (48 <=? nat_of_ascii a)%nat && (nat_of_ascii a <=? 57)%nat.

(** Does a match of [\+f[0-9]+] start at the head of [s]? *)
Definition starts_flag (f : ascii) (s : string) : bool :=
  match s with
  | String a (String b (String d _)) =>
      Ascii.eqb a "+" && Ascii.eqb b f && is_digit d
  | _ => false
  end.

(** Where the scanner is: outside a match, on the flag letter of a match
    whose ["+"] it has just read, or in the digits of a match. *)
Inductive scan : Type := Outside | Letter | Digits.

(** [re.sub(r"\+f[0-9]+", repl, s)] for a replacement [repl] without
    backslash: every match, leftmost first, each as long as possible, is
    replaced by [repl]; the text between the matches is kept. *)
Fixpoint sub_from (f : ascii) (repl : string) (st : scan) (s : string)
  : string :=
  match s with
  | EmptyString => EmptyString
  | String a s' =>
      let outside :=
        if starts_flag f s then repl ++ sub_from f repl Letter s'
        else String a (sub_from f repl Outside s') in
      match st with
      | Letter => sub_from f repl Digits s'
      | Digits => if is_digit a then sub_from f repl Digits s' else outside
      | Outside => outside
      end
  end.

Definition sub (f : ascii) (repl s : string) : string :=
  sub_from f repl Outside s.

(** The longest prefix of digits. *)
Fixpoint take_digits (s : string) : string :=
  match s with
  | EmptyString => EmptyString
  | String a s' => if is_digit a then String a (take_digits s') else EmptyString
  end.

(** The values of the matches of [\+f[0-9]+] in [s], in order: for each
    match, its digits. *)
Fixpoint flags_from (f : ascii) (st : scan) (s : string) : list string :=
  match s with
  | EmptyString => []
  | String a s' =>
      let outside :=
        if starts_flag f s
        then take_digits (match s' with
                          | String _ ds => ds
                          | EmptyString => EmptyString
                          end) :: flags_from f Letter s'
        else flags_from f Outside s' in
      match st with
      | Letter => flags_from f Digits s'
      | Digits => if is_digit a then flags_from f Digits s' else outside
      | Outside => outside
      end
  end.

Definition flags (f : ascii) (s : string) : list string :=
  flags_from f Outside s.


(** The text after the longest prefix of digits. *)
Fixpoint drop_digits (s : string) : string :=
  match s with
  | EmptyString => EmptyString
  | String a s' => if is_digit a then drop_digits s' else s
  end.

Fixpoint all_digits (s : string) : bool :=
  match s with
  | EmptyString => true
  | String a s' => is_digit a && all_digits s'
  end.

(** [s] is empty or starts with a character that is not a digit. *)
Definition head_not_digit (s : string) : Prop :=
  match s with
  | EmptyString => True
  | String a _ => is_digit a = false
  end.

(** A flag letter: neither a digit nor the plus sign. *)
Definition letter (f : ascii) : Prop := is_digit f = false /\ f <> "+"%char.

End Re.

(** ** FreeCAD geometry *)

Module FreeCAD.

(** [App.Vector]: three coordinates. *)
Record Vector : Type := mkVector { x : R; y : R; z : R }.

(** [v.Length] *)
Definition Length (v : Vector) : R :=
  sqrt (x v * x v + y v * y v + z v * z v).

Definition scale (k : R) (v : Vector) : Vector :=
  mkVector (x v * k) (y v * k) (z v * k).

(** [u.cross(v)] *)
Definition cross (u v : Vector) : Vector :=
  mkVector (y u * z v - z u * y v)
           (z u * x v - x u * z v)
           (x u * y v - y u * x v).

(** Vectors are mutable objects: a function that receives a vector receives
    a reference to it.  The heap maps references to the vectors they hold. *)
Definition ref : Type := nat.

Definition read (l : ref) (h : gmap ref Vector) : result Vector :=
  match h !! l with
  | Some v => Ok v
  | None => Raise TypeError
  end.

(** [App.Vector(v)]: a new vector with the coordinates of [v]. *)
Definition Vector_copy (l : ref) (h : gmap ref Vector)
  : result (ref * gmap ref Vector) :=
  let? v := read l h in
  let l' := fresh (dom h) in
  Ok (l', <[l' := v]> h).

(** [v.normalize()]: scales [v] itself to length one and returns [v]; a
    null vector cannot be normalised.  (FreeCAD compares the length with
    the machine epsilon; on real numbers, with zero.) *)
Definition normalize (l : ref) (h : gmap ref Vector)
  : result (ref * gmap ref Vector) :=
  let? v := read l h in
  if Req_dec_T (Length v) 0 then Raise FreeCADError
  else Ok (l, <[l := scale (1 / Length v) v]> h).

(** [v.Length = d]: scales [v] itself to length [d]. *)
Definition set_Length (l : ref) (d : R) (h : gmap ref Vector)
  : result (gmap ref Vector) :=
  let? v := read l h in
  if Req_dec_T (Length v) 0 then Raise RuntimeError
  else Ok (<[l := scale (d / Length v) v]> h).

(** [App.Rotation] and [App.Placement], of which the plugins call [multVec]
    and read [Base] and [Rotation]. *)
Record rotation : Type := {
  multVec : Vector -> Vector;
  Axis : Vector;
  Angle : R
}.

Record placement : Type := {
  Base : Vector;
  Rotation : rotation;
  placement_multVec : Vector -> Vector
}.

(** [Mesh.Mesh]: [Topology] is the pair of the points and of the facets, a
    facet being three point indices; [getPointNormals] is what the method
    of that name returns. *)
Record mesh : Type := {
  Topology : list Vector * list (Z * Z * Z);
  getPointNormals : list Vector
}.


End FreeCAD.

(** ** The POV-Ray plugin *)

Module Povray.

Section Write.
Context `{PyLib}.

(** ["<{0.x},{0.z},{0.y}>".format(v)] *)
Definition format_xzy (v : FreeCAD.Vector) : string :=
  "<" ++ str_float (FreeCAD.x v) ++ "," ++ str_float (FreeCAD.z v) ++ ","
      ++ str_float (FreeCAD.y v) ++ ">".

(** ["<{},{},{}>".format(a, b, c)] for three facet indices *)
Definition format_facet (i : Z * Z * Z) : string :=
  let '(a, b, c) := i in
  "<" ++ str_int a ++ "," ++ str_int b ++ "," ++ str_int c ++ ">".

(** The locals [colo], [vrts], [nrms] and [inds] of [write_object]. *)
Definition colo (color : R * R * R) : string :=
  let '(r, g, b) := color in
  "<" ++ str_float r ++ "," ++ str_float g ++ "," ++ str_float b ++ ">".

Definition vrts (m : FreeCAD.mesh) : list string :=
  map format_xzy (FreeCAD.Topology m).1.

Definition nrms (m : FreeCAD.mesh) : list string :=
  map format_xzy (FreeCAD.getPointNormals m).

Definition inds (m : FreeCAD.mesh) : list string :=
  map format_facet (FreeCAD.Topology m).2.

(** [dedent(snippet).format(...)] of [write_object]: the template without
    its margin of four spaces, each field replaced by its argument. *)
Definition object_text (name len_vertices vertices len_normals normals
                        len_indices indices color : string) : string :=
  nl ++ unlines [
    "// Generated by FreeCAD (http://www.freecadweb.org/)";
    "// Declares object '" ++ name ++ "'";
    "#declare " ++ name ++ " = mesh2 {";
    "    vertex_vectors {";
    "        " ++ len_vertices ++ ",";
    "        " ++ vertices;
    "    }";
    "    normal_vectors {";
    "        " ++ len_normals ++ ",";
    "        " ++ normals;
    "    }";
    "    face_indices {";
    "        " ++ len_indices ++ ",";
    "        " ++ indices;
    "    }";
    "}  // " ++ name;
    "";
    "// Instance to render " ++ name;
    "object { " ++ name;
    "    texture {";
    "        pigment {";
    "            color rgb " ++ color;
    "        }";
    "        finish {StdFinish}";
    "    }";
    "}  // " ++ name ].

Definition write_object (name : string) (m : FreeCAD.mesh)
  (color : R * R * R) (alpha : R) : string :=
  let sep := nl ++ "        " in
  object_text name
    (str_int (Z.of_nat (length (vrts m)))) (join sep (vrts m))
    (str_int (Z.of_nat (length (nrms m)))) (join sep (nrms m))
    (str_int (Z.of_nat (length (inds m)))) (join sep (inds m))
    (colo color).

(** [dedent(snippet).format(n=name, o=location)] of [write_sunskylight]. *)
Definition sunsky_text (n : string) (o : FreeCAD.Vector) : string :=
  nl ++ unlines [
    "// Generated by FreeCAD (http://www.freecadweb.org/)";
    "// Declares sunsky light " ++ n;
    "// sky ------------------------------------";
    "sky_sphere{";
    "    pigment{ gradient y";
    "       color_map{";
    "           [0.0 color rgb<1,1,1> ]";
    "           [0.8 color rgb<0.18,0.28,0.75>]";
    "           [1.0 color rgb<0.75,0.75,0.75>]}";
    "           //[1.0 color rgb<0.15,0.28,0.75>]}";
    "           scale 2";
    "           translate -1";
    "    } // end pigment";
    "} // end sky_sphere";
    "// sun -----------------------------------";
    "global_settings { ambient_light rgb<1, 1, 1> }";
    "light_source {";
    "    " ++ format_xzy o;
    "    color rgb <1,1,1>";
    "    parallel";
    "    point_at <0,0,0>";
    "    adaptive 1";
    "}" ].

(** [direction] is a reference to the caller's vector: [normalize] and the
    assignment to [Length] act on that vector. *)
Definition write_sunskylight (name : string) (direction : FreeCAD.ref)
  (distance turbidity : R) (h : gmap FreeCAD.ref FreeCAD.Vector)
  : result (string * gmap FreeCAD.ref FreeCAD.Vector) :=
  let? r := FreeCAD.normalize direction h in
  let location := r.1 in
  let? h' := FreeCAD.set_Length location distance r.2 in
  let? o := FreeCAD.read location h' in
  Ok (sunsky_text name o, h').

(** The two branches that put a size into [args]: for the flag letter [f]
    ("W" with the width, "H" with the height),
    [if "+f" in args: args = re.sub(r"\+f[0-9]+", "+f{}".format(v), args)]
    [else: args = args + "+f{} ".format(v)]. *)
Definition set_size (f : ascii) (v : Z) (args : string) : string :=
  let flag := String "+" (String f EmptyString) in
  if contains flag args
  then Re.sub f (flag ++ str_int v) args
  else args ++ flag ++ str_int v ++ " ".

(** [render]: the returned path, and what was printed and run. *)
Definition render (params : gmap string string) (project : App.project)
  (prefix : string) (external : bool) (output : string) (width height : Z)
  : string * list event :=
  let prefix := GetString params "Prefix" "" in
  let prefix := if truthy prefix then prefix ++ " " else prefix in
  let rpath := GetString params "PovRayPath" "" in
  if negb (truthy rpath) then
    ("",
     [PrintError ("Unable to locate renderer executable. "
                  ++ "Please set the correct path in "
                  ++ "Edit -> Preferences -> Render" ++ nl)])
  else
    let args := GetString params "PovRayParameters" "" in
    let args := if truthy args then args ++ " " else args in
    let args := set_size "W" width args in
    let args := set_size "H" height args in
    let args :=
      if truthy output then args ++ "+O" ++ output ++ " " else args in
    let cmd := prefix ++ rpath ++ " " ++ args ++ PageResult project in
    (if truthy output then output
     else (splitext (PageResult project)).1 ++ ".png",
     [PrintMessage ("Renderer command: " ++ cmd ++ nl); System cmd]).
End Write.

Section Lights.
Context `{PyLib}.

(** [dedent(snippet).format(n=name, p=pos.Base, t=target, u=updir)] *)
Definition write_camera (name : string) (pos : FreeCAD.placement)
  (updir target : FreeCAD.Vector) : string :=
  nl ++ unlines [
    "// Generated by FreeCAD (http://www.freecadweb.org/)";
    "// Declares camera '" ++ name ++ "'";
    "#declare cam_location = " ++ format_xzy (FreeCAD.Base pos) ++ ";";
    "#declare cam_look_at  = " ++ format_xzy target ++ ";";
    "#declare cam_sky      = " ++ format_xzy updir ++ ";";
    "#declare cam_angle    = 45;";
    "camera {";
    "    location  cam_location";
    "    look_at   cam_look_at";
    "    sky       cam_sky";
    "    angle     cam_angle";
    "    right     x*800/600";
    "}" ].

(** ["<{c[0]},{c[1]},{c[2]}>"] without its brackets *)
Definition format_rgb (c : R * R * R) : string :=
  let '(c0, c1, c2) := c in
  str_float c0 ++ "," ++ str_float c1 ++ "," ++ str_float c2.

(** [dedent(snippet).format(name, pos, color)] *)
Definition write_pointlight (name : string) (pos : FreeCAD.Vector)
  (color : R * R * R) (power : R) : string :=
  nl ++ unlines [
    "// Generated by FreeCAD (http://www.freecadweb.org/)";
    "// Declares point light " ++ name;
    "light_source {";
    "    " ++ format_xzy pos;
    "    color rgb<" ++ format_rgb color ++ ">";
    "}" ].

Definition write_arealight (name : string) (pos : FreeCAD.placement)
  (size_u size_v : R) (color : R * R * R) (power : R) : string :=
  let size_1 := 20%Z in
  let size_2 := 20%Z in
  let rot := FreeCAD.Rotation pos in
  let axis1 := FreeCAD.multVec rot (FreeCAD.mkVector size_u 0 0) in
  let axis2 := FreeCAD.multVec rot (FreeCAD.mkVector 0 size_v 0) in
  nl ++ unlines [
    "// Generated by FreeCAD (http://www.freecadweb.org/)";
    "// Declares area light " ++ name;
    "light_source {";
    "    " ++ format_xzy (FreeCAD.Base pos);
    "    color rgb <" ++ format_rgb color ++ ">";
    "    area_light " ++ format_xzy axis1 ++ ", " ++ format_xzy axis2
      ++ ", " ++ str_int size_1 ++ ", " ++ str_int size_2;
    "    adaptive 1";
    "    jitter";
    "}" ].

(** [dedent(snippet).format(n=name, f=image)] *)
Definition write_imagelight (name image : string) : string :=
  nl ++ unlines [
    "// Generated by FreeCAD (http://www.freecadweb.org/)";
    "// Declares image-based light " ++ name;
    "// hdr environment -----------------------";
    "sky_sphere{";
    "    matrix < -1, 0, 0,";
    "              0, 1, 0,";
    "              0, 0, 1,";
    "              0, 0, 0 >";
    "    pigment{";
    "        image_map{ hdr " ++ q image;
    "                   gamma 1";
    "                   map_type 1 interpolate 2}";
    "    } // end pigment";
    "} // end sphere with hdr image" ].
End Lights.

End Povray.

(** ** The Cycles plugin *)

Module Cycles.

Section Write.
Context `{PyLib}.

(** [renderers.utils.sunlight.sunlight], whose result [write_sunskylight]
    does not use. *)
Context (sunlight : R -> R -> pyval).

(** *** Materials *)

(** [MATERIALS[key]] for a dictionary with string keys: any other key is
    absent. *)
Definition getitem {A : Type} (d : gmap string A) (key : pyval) : result A :=
  match key with
  | PyStr k =>
      match d !! k with
      | Some a => Ok a
      | None => Raise KeyError
      end
  | _ => Raise KeyError
  end.

(** [v == "Cycles"] *)
Definition is_str (v : pyval) (s : string) : bool :=
  match v with
  | PyStr s' => String.eqb s' s
  | _ => false
  end.

Definition _write_material_passthrough (name : string) (material : pyval)
  : result string :=
  let? passthrough := getattr material "passthrough" in
  let? renderer := getattr passthrough "renderer" in
  if negb (is_str renderer "Cycles") then Raise AssertionError
  else
    let? passthrough := getattr material "passthrough" in
    let? text := getattr passthrough "string" in
    let? snippet :=
      match text with
      | PyStr t => Ok (indent t "    ")
      | _ => Raise AttributeError
      end in
    let? c := getattr material "default_color" in
    py_format snippet [] [("n", PyStr name); ("c", c)].

(** The fields [{c.r}], [{c.g}] and [{c.b}] of a template. *)
Definition rgb_fields (c : pyval) : result (string * string * string) :=
  let? r := getattr c "r" in
  let? g := getattr c "g" in
  let? b := getattr c "b" in
  Ok (str r, str g, str b).

Definition _write_material_glass (name : string) (material : pyval)
  : result string :=
  let? glass := getattr material "glass" in
  let? c := getattr glass "color" in
  let? glass := getattr material "glass" in
  let? i := getattr glass "ior" in
  let? f := rgb_fields c in
  let '(cr, cg, cb) := f in
  Ok (nl ++ join nl [
    "    <!-- Generated by FreeCAD - Object '" ++ name ++ "' -->";
    "    <shader name=" ++ q name ++ ">";
    "        <glass_bsdf name=" ++ q (name ++ "_bsdf") ++ " IOR=" ++ q (str i)
      ++ " color=" ++ q (cr ++ ", " ++ cg ++ ", " ++ cb) ++ "/>";
    "        <connect from=" ++ q (name ++ "_bsdf bsdf")
      ++ " to=" ++ q "output surface" ++ "/>";
    "    </shader>" ]).

Definition _write_material_disney (name : string) (material : pyval)
  : result string :=
  let field (k : string) : result pyval :=
    let? disney := getattr material "disney" in getattr disney k in
  let? basecolor := field "basecolor" in
  let? subsurface := field "subsurface" in
  let? metallic := field "metallic" in
  let? specular := field "specular" in
  let? speculartint := field "speculartint" in
  let? roughness := field "roughness" in
  let? anisotropic := field "anisotropic" in
  let? sheen := field "sheen" in
  let? sheentint := field "sheentint" in
  let? clearcoat := field "clearcoat" in
  let? clearcoatgloss := field "clearcoatgloss" in
  let? gloss := float clearcoatgloss in
  let? f := rgb_fields basecolor in
  let '(cr, cg, cb) := f in
  let attribute (k : string) (v : string) : string :=
    "                         " ++ k ++ " = " ++ q v in
  Ok (nl ++ join nl [
    "    <!-- Generated by FreeCAD - Object '" ++ name ++ "' -->";
    "    <shader name=" ++ q name ++ ">";
    "        <principled_bsdf name=" ++ q (name ++ "_bsdf");
    attribute "base_color" (cr ++ " " ++ cg ++ " " ++ cb);
    attribute "subsurface" (str subsurface);
    attribute "metallic" (str metallic);
    attribute "specular" (str specular);
    attribute "specular_tint" (str speculartint);
    attribute "roughness" (str roughness);
    attribute "anisotropic" (str anisotropic);
    attribute "sheen" (str sheen);
    attribute "sheen_tint" (str sheentint);
    attribute "clearcoat" (str clearcoat);
    attribute "clearcoat_roughness" (str_float (1 - gloss)) ++ " />";
    "        <connect from=" ++ q (name ++ "_bsdf bsdf")
      ++ " to=" ++ q "output surface" ++ "/>";
    "    </shader>" ]).

Definition _write_material_diffuse (name : string) (material : pyval)
  : result string :=
  let? diffuse := getattr material "diffuse" in
  let? c := getattr diffuse "color" in
  let? f := rgb_fields c in
  let '(cr, cg, cb) := f in
  Ok (nl ++ join nl [
    "    <!-- Generated by FreeCAD - Object '" ++ name ++ "' -->";
    "    <shader name=" ++ q name ++ ">";
    "        <diffuse_bsdf name=" ++ q (name ++ "_bsdf")
      ++ " color=" ++ q (cr ++ ", " ++ cg ++ ", " ++ cb) ++ "/>";
    "        <connect from=" ++ q (name ++ "_bsdf bsdf")
      ++ " to=" ++ q "output surface" ++ "/>";
    "    </shader>" ]).

Definition _write_material_mixed (name : string) (material : pyval)
  : result string :=
  let sub (k1 k2 : string) : result pyval :=
    let? mixed := getattr material "mixed" in
    let? part := getattr mixed k1 in getattr part k2 in
  let? c := sub "glass" "color" in
  let? i := sub "glass" "ior" in
  let? k := sub "diffuse" "color" in
  let? mixed := getattr material "mixed" in
  let? r := getattr mixed "transparency" in
  let? fc := rgb_fields c in
  let? fk := rgb_fields k in
  let '(cr, cg, cb) := fc in
  let '(kr, kg, kb) := fk in
  Ok (nl ++ join nl [
    "    <!-- Generated by FreeCAD - Object '" ++ name ++ "' -->";
    "    <shader name=" ++ q name ++ ">";
    "        <glass_bsdf name=" ++ q (name ++ "_glass_bsdf");
    "                    IOR=" ++ q (str i)
      ++ " color=" ++ q (cr ++ ", " ++ cg ++ ", " ++ cb) ++ "/>";
    "        <diffuse_bsdf name=" ++ q (name ++ "_diffuse_bsdf")
      ++ " color=" ++ q (kr ++ ", " ++ kg ++ ", " ++ kb) ++ "/>";
    "        <mix_closure name=" ++ q (name ++ "_closure")
      ++ " fac=" ++ q (str r) ++ " />";
    "        <connect from=" ++ q (name ++ "_diffuse_bsdf bsdf")
      ++ " to=" ++ q (name ++ "_closure closure1") ++ "/>";
    "        <connect from=" ++ q (name ++ "_glass_bsdf bsdf")
      ++ " to=" ++ q (name ++ "_closure closure2") ++ "/>";
    "        <connect from=" ++ q (name ++ "_closure closure")
      ++ " to=" ++ q "output surface" ++ "/>";
    "    </shader>" ]).

(** [0 <= a <= 1] *)
Definition in_unit (a : R) : bool :=
  if Rle_dec 0 a then (if Rle_dec a 1 then true else false) else false.

(** [float(material.default_color.k)] *)
Definition fallback_channel (material : pyval) (k : string) : result R :=
  let? default_color := getattr material "default_color" in
  let? v := getattr default_color k in
  float v.

(** The [try] block of [_write_material_fallback]: the three channels as
    floats, or the exception that interrupts it. *)
Definition fallback_channels (material : pyval) : result (R * R * R) :=
  let? red := fallback_channel material "r" in
  let? grn := fallback_channel material "g" in
  let? blu := fallback_channel material "b" in
  if in_unit red && in_unit grn && in_unit blu then Ok (red, grn, blu)
  else Raise AssertionError.

(** [snippet.format(n=name, r=red, g=grn, b=blu)] of the fallback. *)
Definition fallback_text (n : string) (red grn blu : pyval) : string :=
  nl ++ join nl [
    "    <!-- Generated by FreeCAD - Object '" ++ n ++ "' - FALLBACK -->";
    "    <shader name=" ++ q n ++ ">";
    "        <diffuse_bsdf name=" ++ q (n ++ "_bsdf")
      ++ " color=" ++ q (str red ++ ", " ++ str grn ++ ", " ++ str blu)
      ++ "/>";
    "        <connect from=" ++ q (n ++ "_bsdf bsdf")
      ++ " to=" ++ q "output surface" ++ "/>";
    "    </shader>" ].

Definition _write_material_fallback (name : string) (material : pyval)
  : result string :=
  match fallback_channels material with
  | Ok (red, grn, blu) =>
      Ok (fallback_text name (PyFloat red) (PyFloat grn) (PyFloat blu))
  | Raise AttributeError | Raise ValueError | Raise TypeError
  | Raise AssertionError =>
      Ok (fallback_text name (PyInt 1) (PyInt 1) (PyInt 1))
  | Raise e => Raise e
  end.

Definition MATERIALS : gmap string (string -> pyval -> result string) :=
  list_to_map [
    ("Passthrough", _write_material_passthrough);
    ("Glass", _write_material_glass);
    ("Disney", _write_material_disney);
    ("Diffuse", _write_material_diffuse);
    ("Mixed", _write_material_mixed) ].

(** The handler of [KeyError] in [_write_material]. *)
Definition unknown_material (name : string) (material : pyval)
  : result string * list event :=
  match getattr material "shadertype" with
  | Raise e => (Raise e, [])
  | Ok shadertype =>
      let warning :=
        PrintWarning ("'" ++ name ++ "' - Material '" ++ str shadertype
                      ++ "' unknown by renderer, using fallback material"
                      ++ nl) in
      (let? default_color := getattr material "default_color" in
       _write_material_fallback name default_color,
       [warning])
  end.

(** [_write_material]: the fragment or the exception that reaches the
    caller, and what was printed. *)
Definition _write_material (name : string) (material : pyval)
  : result string * list event :=
  match (let? shadertype := getattr material "shadertype" in
         let? emitter := getitem MATERIALS shadertype in
         emitter name material) with
  | Raise KeyError => unknown_material name material
  | r => (r, [])
  end.

(** *** Objects *)

(** ["{0.x} {0.y} {0.z}".format(p)] *)
Definition format_xyz (p : FreeCAD.Vector) : string :=
  str_float (FreeCAD.x p) ++ " " ++ str_float (FreeCAD.y p) ++ " "
    ++ str_float (FreeCAD.z p).

(** ["{} {} {}".format(a, b, c)] for three facet indices *)
Definition format_facet (v : Z * Z * Z) : string :=
  let '(a, b, c) := v in
  str_int a ++ " " ++ str_int b ++ " " ++ str_int c.

(** The locals [points], [verts] and [nverts] of [write_object]. *)
Definition points (m : FreeCAD.mesh) : list string :=
  map format_xyz (FreeCAD.Topology m).1.

Definition verts (m : FreeCAD.mesh) : list string :=
  map format_facet (FreeCAD.Topology m).2.

Definition nverts (m : FreeCAD.mesh) : list string :=
  repeat "3" (length (verts m)).

Definition snippet_obj : string :=
  nl ++ unlines [
    "    <state shader=" ++ q "{n}" ++ ">";
    "        <mesh P=" ++ q "{p}";
    "              nverts=" ++ q "{i}";
    "              verts=" ++ q "{v}" ++ "/>";
    "    </state>" ].

(** The material fragment and the mesh template are joined, and the
    whole is formatted. *)
Definition write_object (name : string) (m : FreeCAD.mesh)
  (material : pyval) : result string * list event :=
  let (snippet_mat, printed) := _write_material name material in
  (let? snippet_mat := snippet_mat in
   let snippet := snippet_mat ++ snippet_obj in
   py_format snippet []
     [("n", PyStr name);
      ("p", PyStr (join "  " (points m)));
      ("i", PyStr (join "  " (nverts m)));
      ("v", PyStr (join "  " (verts m)))],
   printed).

(** *** Area light *)

(** The emission shader that both templates of [write_arealight] begin
    with, after their first line. *)
Definition emission_lines (n : string) (shader_attributes : string)
  (c : R * R * R) (s : R) : list string :=
  let '(c0, c1, c2) := c in
  [ "    <shader name=" ++ q (n ++ "_shader") ++ shader_attributes ++ ">";
    "        <emission name=" ++ q (n ++ "_emit");
    "                  color="
      ++ q (str_float c0 ++ " " ++ str_float c1 ++ " " ++ str_float c2);
    "                  strength=" ++ q (str_float s) ++ "/>";
    "        <connect from=" ++ q (n ++ "_emit emission");
    "                 to=" ++ q "output surface" ++ "/>";
    "    </shader>";
    "    <state shader=" ++ q (n ++ "_shader") ++ ">" ].

(** [snippet1.format(...)] *)
Definition arealight_text_transparent (n : string) (c : R * R * R)
  (p : FreeCAD.Vector) (s : R) (u v : FreeCAD.Vector) (a b : R)
  (d : FreeCAD.Vector) : string :=
  nl ++ unlines (
    [ "    <!-- Generated by FreeCAD - Area light '" ++ n
        ++ "' (transparent) -->" ]
    ++ emission_lines n "" c s ++
    [ "        <light type=" ++ q "area";
      "               co=" ++ q (format_xyz p);
      "               strength=" ++ q "1 1 1";
      "               axisu=" ++ q (format_xyz u);
      "               axisv=" ++ q (format_xyz v);
      "               sizeu=" ++ q (str_float a);
      "               sizev=" ++ q (str_float b);
      "               size=" ++ q "1";
      "               dir=" ++ q (format_xyz d);
      "               use_mis = " ++ q "true";
      "        />";
      "    </state>" ]).

(** [snippet2.format(...)] *)
Definition arealight_text_opaque (n : string) (c : R * R * R) (s : R)
  (P : string) : string :=
  nl ++ unlines (
    [ "    <!-- Generated by FreeCAD - Area light '" ++ n
        ++ "' (opaque) -->" ]
    ++ emission_lines n (" use_mis=" ++ q "true") c s ++
    [ "        <mesh P=" ++ q P;
      "              nverts=" ++ q "4";
      "              verts=" ++ q "0 1 2 3";
      "              use_mis=" ++ q "true";
      "              />";
      "    </state>" ]).

(** [strength = power if transparent else power / (size_u * size_v)] *)
Definition strength (power size_u size_v : R) (transparent : bool)
  : result R :=
  if transparent then Ok power else div power (mul size_u size_v).

(** The argument [s] of the template: [strength * 100]. *)
Definition emitted_strength (power size_u size_v : R) (transparent : bool)
  : result R :=
  let? strength := strength power size_u size_v transparent in
  Ok (strength * 100)%R.

Definition write_arealight (name : string) (pos : FreeCAD.placement)
  (size_u size_v : R) (color : R * R * R) (power : R) (transparent : bool)
  : result string :=
  let rot := FreeCAD.Rotation pos in
  let axis1 := FreeCAD.multVec rot (FreeCAD.mkVector 1 0 0) in
  let axis2 := FreeCAD.multVec rot (FreeCAD.mkVector 0 1 0) in
  let direction := FreeCAD.cross axis1 axis2 in
  let points :=
    [ FreeCAD.mkVector (- size_u / 2) (- size_v / 2) 0;
      FreeCAD.mkVector (size_u / 2) (- size_v / 2) 0;
      FreeCAD.mkVector (size_u / 2) (size_v / 2) 0;
      FreeCAD.mkVector (- size_u / 2) (size_v / 2) 0 ] in
  let points := map (FreeCAD.placement_multVec pos) points in
  let points := map format_xyz points in
  let points := join "  " points in
  let? s := emitted_strength power size_u size_v transparent in
  Ok (if transparent
      then arealight_text_transparent name color (FreeCAD.Base pos) s
             axis1 axis2 size_u size_v direction
      else arealight_text_opaque name color s points).

(** *** Sun and sky *)

(** [theta] and [phi] of [write_sunskylight], from the normalised copy of
    the direction. *)
Definition sun_angles (_dir : FreeCAD.Vector) : result (R * R) :=
  let? ratio :=
    div (FreeCAD.z _dir)
        (sqrt (FreeCAD.x _dir * FreeCAD.x _dir
               + FreeCAD.y _dir * FreeCAD.y _dir
               + FreeCAD.z _dir * FreeCAD.z _dir)) in
  let? theta := math_asin ratio in
  let phi := atan2 (FreeCAD.x _dir) (FreeCAD.y _dir) in
  Ok (theta, phi).

(** [snippet.format(n=name, t=turbidity, g=albedo, e=theta, r=phi)] *)
Definition sunsky_text (n : string) (t g e r : R) : string :=
  nl ++ unlines [
    "    <!-- Generated by FreeCAD - Sun_sky light '" ++ n ++ "' -->";
    "    <background name=" ++ q (n ++ "_bg") ++ ">";
    "          <background name=" ++ q (n ++ "_bg")
      ++ " strength=" ++ q "0.3" ++ "/>";
    "          <sky_texture name=" ++ q (n ++ "_tex");
    "                       sky_type=" ++ q "nishita_improved";
    "                       turbidity=" ++ q (str_float t);
    "                       ground_albedo=" ++ q (str_float g);
    "                       sun_disc=" ++ q "true";
    "                       sun_elevation=" ++ q (str_float e);
    "                       sun_rotation=" ++ q (str_float r);
    "                       />";
    "          <connect from=" ++ q (n ++ "_tex color")
      ++ " to=" ++ q (n ++ "_bg color") ++ " />";
    "          <connect from=" ++ q (n ++ "_bg background")
      ++ " to=" ++ q "output surface" ++ " />";
    "    </background>" ].

(** The part of [write_sunskylight] that computes the angles: the
    assertion, the copy of the direction, its normalisation, [theta] and
    [phi].  [direction] is a reference to the caller's vector. *)
Definition sunsky_angles (direction : FreeCAD.ref)
  (h : gmap FreeCAD.ref FreeCAD.Vector)
  : result (R * R * gmap FreeCAD.ref FreeCAD.Vector) :=
  let? d := FreeCAD.read direction h in
  if Req_dec_T (FreeCAD.Length d) 0 then Raise AssertionError
  else
    let? r := FreeCAD.Vector_copy direction h in
    let _dir := r.1 in
    let? r := FreeCAD.normalize _dir r.2 in
    let? v := FreeCAD.read _dir r.2 in
    let? a := sun_angles v in
    Ok (a, r.2).

Definition write_sunskylight (name : string) (direction : FreeCAD.ref)
  (distance turbidity albedo : R) (h : gmap FreeCAD.ref FreeCAD.Vector)
  : result (string * gmap FreeCAD.ref FreeCAD.Vector) :=
  let? r := sunsky_angles direction h in
  let '(theta, phi, h') := r in
  let sun := sunlight theta turbidity in
  Ok (sunsky_text name turbidity albedo theta phi, h').
End Write.

(** [render]: the returned path, and what was printed and run. *)
Definition render (params : gmap string string) (project : App.project)
  (prefix : string) (external : bool) (output : string) (width height : Z)
  : string * list event :=
  let prefix := GetString params "Prefix" "" in
  let prefix := if truthy prefix then prefix ++ " " else prefix in
  let rpath := GetString params "CyclesPath" "" in
  let args := GetString params "CyclesParameters" "" in
  let args := args ++ " --output " ++ output in
  let args := if negb external then args ++ " --background" else args in
  if negb (truthy rpath) then
    ("",
     [PrintError ("Unable to locate renderer executable. "
                  ++ "Please set the correct path in "
                  ++ "Edit -> Preferences -> Render" ++ nl)])
  else
    let args := args ++ " --width " ++ str_int width in
    let args := args ++ " --height " ++ str_int height in
    let cmd := prefix ++ rpath ++ " " ++ args ++ " " ++ PageResult project in
    (output, [PrintMessage (cmd ++ nl); System cmd]).

Section Lights.
Context `{PyLib}.

(** [pathlib.Path(image).name], which depends on the platform. *)
Context (path_name : string -> string).

(** [math.degrees] and [math.radians] *)
Definition degrees (a : R) : R := (a * (180 / PI))%R.
Definition radians (a : R) : R := (a * (PI / 180))%R.

(** [snippet.format(n=name, a=degrees(pos.Rotation.Angle),
    r=pos.Rotation.Axis, p=pos.Base, f=radians(fov))] *)
Definition write_camera (name : string) (pos : FreeCAD.placement)
  (updir target : FreeCAD.Vector) (fov : R) : string :=
  nl ++ join nl [
    "    <!-- Generated by FreeCAD - Camera '" ++ name ++ "' -->";
    "    <transform rotate="
      ++ q (str_float (degrees (FreeCAD.Angle (FreeCAD.Rotation pos)))
            ++ " " ++ format_xyz (FreeCAD.Axis (FreeCAD.Rotation pos)));
    "               translate=" ++ q (format_xyz (FreeCAD.Base pos));
    "               scale=" ++ q "1 1 -1" ++ ">";
    "        <camera type=" ++ q "perspective";
    "                fov=" ++ q (str_float (radians fov)) ++ "/>";
    "    </transform>" ].

(** [snippet.format(n=name, c=color, p=pos, s=power*100)] *)
Definition write_pointlight (name : string) (pos : FreeCAD.Vector)
  (color : R * R * R) (power : R) : string :=
  nl ++ unlines (
    [ "    <!-- Generated by FreeCAD - Pointlight '" ++ name ++ "' -->" ]
    ++ emission_lines name "" color (power * 100) ++
    [ "        <light type=" ++ q "point";
      "               co=" ++ q (format_xyz pos);
      "               strength=" ++ q "1 1 1" ++ "/>";
      "    </state>" ]).

(** [snippet.format(n=name, f=filename)] *)
Definition write_imagelight (name image : string) : string :=
  let filename := path_name image in
  nl ++ unlines [
    "    <!-- Generated by FreeCAD - Image-based light '" ++ name ++ "' -->";
    "    <background>";
    "          <background name=" ++ q (name ++ "_bg") ++ " />";
    "          <environment_texture name= " ++ q (name ++ "_tex");
    "                               filename = " ++ q filename ++ " />";
    "          <connect from=" ++ q (name ++ "_tex color")
      ++ " to=" ++ q (name ++ "_bg color") ++ " />";
    "          <connect from=" ++ q (name ++ "_bg background")
      ++ " to=" ++ q "output surface" ++ " />";
    "    </background>" ].
End Lights.

End Cycles.


(** ** The plugin interface *)

Module Renderer.

(** The two renderers that the workbench can load. *)
Inductive backend : Type := CyclesBackend | PovrayBackend.

(** The preference that holds the path of the executable. *)
Definition path_key (b : backend) : string :=
  match b with
  | CyclesBackend => "CyclesPath"
  | PovrayBackend => "PovRayPath"
  end.

(** The function [render] of the plugin. *)
Definition render `{PyLib} (b : backend)
  : gmap string string -> App.project -> string -> bool -> string -> Z -> Z
    -> string * list event :=
  match b with
  | CyclesBackend => Cycles.render
  | PovrayBackend => Povray.render
  end.

End Renderer.

(** ** An implementation of the library interface

    It runs the model on examples: [os.path.splitext] as on POSIX,
    [textwrap.indent] on lines ended by a line feed, and [str.format] on
    templates whose fields are a keyword followed by attribute names, as in
    [{n}] and [{c.r}].  Floats that are integers print as Python prints them
    below 1e16; the others print as their integer part. *)

Module Sample.

Definition str_float (a : R) : string := str_int (Int_part a) ++ ".0".

Definition float_of_str (s : string) : option R :=
  if String.eqb s "0" then Some 0%R
  else if String.eqb s "1" then Some 1%R
  else None.

Definition obj_str (attrs : list (string * pyval)) : string := "<object>".

(** The index of the last occurrence of [c] in [s], counted from [i]. *)
Fixpoint rfind_from (c : ascii) (s : string) (i : nat) : option nat :=
  match s with
  | EmptyString => None
  | String a s' =>
      match rfind_from c s' (S i) with
      | Some j => Some j
      | None => if Ascii.eqb a c then Some i else None
      end
  end.

Fixpoint all_dots (s : string) : bool :=
  match s with
  | EmptyString => true
  | String a s' => Ascii.eqb a "." && all_dots s'
  end.

(** [posixpath.splitext]: the extension starts at the last dot of the last
    component, unless only dots precede it there. *)
Definition splitext (p : string) : string * string :=
  let start :=
    match rfind_from "/" p 0 with
    | Some i => S i
    | None => 0%nat
    end in
  match rfind_from "." p 0 with
  | Some dot =>
      if (start <=? dot)%nat
         && negb (all_dots (String.substring start (dot - start) p))
      then (String.substring 0 dot p,
            String.substring dot (String.length p - dot) p)
      else (p, "")
  | None => (p, "")
  end.

Definition is_space (a : ascii) : bool :=
  let n := nat_of_ascii a in
  ((9 <=? n)%nat && (n <=? 13)%nat) || ((28 <=? n)%nat && (n <=? 32)%nat).

Fixpoint blank (s : string) : bool :=
  match s with
  | EmptyString => true
  | String a s' => is_space a && blank s'
  end.

(** The lines of a text, each with its line feed; [cur] is the line being
    read. *)
Fixpoint lines_from (cur s : string) : list string :=
  match s with
  | EmptyString => if truthy cur then [cur] else []
  | String a s' =>
      if Ascii.eqb a (ascii_of_nat 10)
      then (cur ++ String a EmptyString) :: lines_from "" s'
      else lines_from (cur ++ String a EmptyString) s'
  end.

(** [textwrap.indent]: the prefix goes before every line that is not
    blank. *)
Definition indent (text prefix : string) : string :=
  String.concat ""
    (map (fun line => if blank line then line else prefix ++ line)
         (lines_from "" text)).

(** The value of a field [name.attr1.attr2...], given by its names, the
    last one first. *)
Fixpoint resolve (kwargs : list (string * pyval)) (field : list string)
  : result pyval :=
  match field with
  | [] => Raise KeyError
  | [name] =>
      match lookup_attr kwargs name with
      | Ok v => Ok v
      | Raise _ => Raise KeyError
      end
  | attr :: rest => let? v := resolve kwargs rest in getattr v attr
  end.

(** The names of a field, the last one first: [cur] is the name being
    read, [acc] the names already read. *)
Fixpoint names_from (cur : string) (acc : list string) (s : string)
  : list string :=
  match s with
  | EmptyString => cur :: acc
  | String a s' =>
      if Ascii.eqb a "." then names_from "" (cur :: acc) s'
      else names_from (cur ++ String a EmptyString) acc s'
  end.

Definition str (v : pyval) : string :=
  match v with
  | PyNone => "None"
  | PyInt n => str_int n
  | PyFloat a => str_float a
  | PyStr t => t
  | PyObj attrs => obj_str attrs
  end.

(** [field] is [None] in the text and the field read so far inside
    braces. *)
Fixpoint format_from (kwargs : list (string * pyval)) (field : option string)
  (t : string) : result string :=
  match t with
  | EmptyString =>
      match field with
      | None => Ok ""
      | Some _ => Raise ValueError
      end
  | String a t' =>
      match field with
      | Some f =>
          if Ascii.eqb a "}" then
            let? v := resolve kwargs (names_from "" [] f) in
            let? rest := format_from kwargs None t' in
            Ok (str v ++ rest)
          else format_from kwargs (Some (f ++ String a EmptyString)) t'
      | None =>
          if Ascii.eqb a "{" then
            match t' with
            | String b t'' =>
                if Ascii.eqb b "{" then
                  let? rest := format_from kwargs None t'' in
                  Ok (String a rest)
                else format_from kwargs (Some "") t'
            | EmptyString => Raise ValueError
            end
          else if Ascii.eqb a "}" then
            match t' with
            | String b t'' =>
                if Ascii.eqb b "}" then
                  let? rest := format_from kwargs None t'' in
                  Ok (String a rest)
                else Raise ValueError
            | EmptyString => Raise ValueError
            end
          else
            let? rest := format_from kwargs None t' in
            Ok (String a rest)
      end
  end.

Definition py_format (t : string) (args : list pyval)
  (kwargs : list (string * pyval)) : result string :=
  format_from kwargs None t.

Definition lib : PyLib := {|
  Py.str_float := str_float;
  Py.float_of_str := float_of_str;
  Py.obj_str := obj_str;
  Py.py_format := py_format;
  Py.indent := indent;
  Py.splitext := splitext
|}.

(** The placement at the origin, not rotated. *)
Definition placement_at_origin : FreeCAD.placement := {|
  FreeCAD.Base := FreeCAD.mkVector 0 0 0;
  FreeCAD.Rotation := {| FreeCAD.multVec := fun v => v;
                          FreeCAD.Axis := FreeCAD.mkVector 0 0 1;
                          FreeCAD.Angle := 0 |};
  FreeCAD.placement_multVec := fun v => v
|}.

(** [sunlight] is not called on the examples' account: its result is
    dropped. *)
Definition sunlight (theta turbidity : R) : pyval := PyNone.

End Sample.

(** * Properties *)

Lemma truthy_nonempty (s : string) : s <> "" -> truthy s = true.
Proof. destruct s; [congruence | reflexivity]. Qed.

Lemma truthy_empty (s : string) : truthy s = false -> s = "".
Proof. destruct s; [reflexivity | discriminate]. Qed.

(** ** Render invocation *)

(** C3. When the preference that holds the path of the executable is
    empty, [render] of either plugin returns the empty path, and what it
    did starts no process. *)
Theorem render_without_executable `{PyLib} (b : Renderer.backend)
  (params : gmap string string) (project : App.project) (prefix : string)
  (external : bool) (output : string) (width height : Z) :
  GetString params (Renderer.path_key b) "" = "" ->
  exists printed,
    Renderer.render b params project prefix external output width height
      = ("", printed)
    /\ spawn_count printed = 0%nat.
Proof.
  intros Hpath. destruct b; cbn [Renderer.path_key] in Hpath;
    cbv [Renderer.render Cycles.render Povray.render];
    rewrite Hpath; cbn [truthy negb]; eexists; split; reflexivity.
Qed.

Lemma render_without_executable_witness :
  GetString ∅ (Renderer.path_key Renderer.PovrayBackend) "" = ""
  /\ exists printed,
       Renderer.render (H := Sample.lib) Renderer.PovrayBackend ∅
         {| PageResult := "scene.pov" |} "" false "scene.png" 800 600
         = ("", printed)
       /\ spawn_count printed = 0%nat.
Proof.
  split; [reflexivity |].
  apply (render_without_executable (H := Sample.lib)
           Renderer.PovrayBackend ∅). reflexivity.
Defined.

(** C5, as the code has it. When the path of the executable is set,
    [render] runs one process; the POV-Ray plugin returns the output path of
    the caller, or, when that is empty, the path of the scene file with its
    extension replaced by [.png]; the Cycles plugin returns the output path
    of the caller as it is. *)
Theorem render_returned_path `{PyLib} (b : Renderer.backend)
  (params : gmap string string) (project : App.project) (prefix : string)
  (external : bool) (output : string) (width height : Z) :
  GetString params (Renderer.path_key b) "" <> "" ->
  exists printed,
    Renderer.render b params project prefix external output width height
      = (match b with
         | Renderer.CyclesBackend => output
         | Renderer.PovrayBackend =>
             if truthy output then output
             else (splitext (PageResult project)).1 ++ ".png"
         end, printed)
    /\ spawn_count printed = 1%nat.
Proof.
  intros Hpath. apply truthy_nonempty in Hpath.
  destruct b; cbn [Renderer.path_key] in Hpath;
    cbv [Renderer.render Cycles.render Povray.render];
    rewrite Hpath; cbn [negb]; eexists; split; reflexivity.
Qed.

Lemma render_returned_path_witness :
  GetString {[ "PovRayPath" := "povray" ]}
    (Renderer.path_key Renderer.PovrayBackend) "" <> ""
  /\ exists printed,
       Renderer.render (H := Sample.lib) Renderer.PovrayBackend
         {[ "PovRayPath" := "povray" ]}
         {| PageResult := "/tmp/scene.pov" |} "" false "" 800 600
         = ("/tmp/scene.png", printed)
       /\ spawn_count printed = 1%nat.
Proof.
  split; [vm_compute; discriminate |].
  apply (render_returned_path (H := Sample.lib) Renderer.PovrayBackend
           {[ "PovRayPath" := "povray" ]} {| PageResult := "/tmp/scene.pov" |}
           "" false "" 800 600).
  vm_compute; discriminate.
Defined.

(** C5 as stated fails for Cycles: with no output path given, [render]
    runs the renderer and returns the empty path, not a path made from the
    name of the scene file. *)
Lemma cycles_render_returns_empty_output :
  Cycles.render {[ "CyclesPath" := "cycles" ]}
    {| PageResult := "/tmp/scene.xml" |} "" false "" 800 600
  = ("",
     [ PrintMessage ("cycles  --output  --background --width 800 "
                     ++ "--height 600 /tmp/scene.xml" ++ nl);
       System ("cycles  --output  --background --width 800 "
               ++ "--height 600 /tmp/scene.xml") ])
  /\ "" <> (Sample.splitext "/tmp/scene.xml").1 ++ ".png".
Proof. split; [vm_compute; reflexivity | vm_compute; discriminate]. Qed.

(** C10. The prefix that the caller passes has no effect: [render]
    replaces it by the preference [Prefix] before it reads it. *)
Theorem render_ignores_prefix_argument `{PyLib} (b : Renderer.backend)
  (params : gmap string string) (project : App.project)
  (prefix1 prefix2 : string) (external : bool) (output : string)
  (width height : Z) :
  Renderer.render b params project prefix1 external output width height
  = Renderer.render b params project prefix2 external output width height.
Proof. destruct b; reflexivity. Qed.

(** ** Size flags *)

Lemma append_cons (a : ascii) (s t : string) :
  String a s ++ t = String a (s ++ t).
Proof. reflexivity. Qed.

Lemma append_empty (t : string) : "" ++ t = t.
Proof. reflexivity. Qed.

Lemma append_assoc (s t u : string) : (s ++ t) ++ u = s ++ t ++ u.
Proof.
  induction s as [| a s IH]; [reflexivity |].
  rewrite !append_cons. f_equal. exact IH.
Qed.

Section Flags.
Import Re.
Variable f : ascii.
Hypothesis Hf : letter f.

Lemma starts_flag_inv (s : string) :
  starts_flag f s = true ->
  exists d s2, s = String "+" (String f (String d s2)) /\ is_digit d = true.
Proof.
  destruct s as [| a [| b [| d s2]]]; cbn; try discriminate.
  intros E. apply andb_prop in E as [E Hd]. apply andb_prop in E as [Ea Eb].
  apply Ascii.eqb_eq in Ea, Eb. subst. eauto.
Qed.

Lemma starts_flag_plus (b : ascii) (t : string) :
  starts_flag f (String "+" (String b t))
  = Ascii.eqb b f && match t with
                     | String d _ => is_digit d
                     | EmptyString => false
                     end.
Proof. destruct t; cbn; [rewrite andb_false_r |]; reflexivity. Qed.

Lemma starts_flag_other (a : ascii) (t : string) :
  a <> "+"%char -> starts_flag f (String a t) = false.
Proof.
  intros Ha. destruct t as [| b [| d t]]; cbn; try reflexivity.
  apply Ascii.eqb_neq in Ha. rewrite Ha. reflexivity.
Qed.

Lemma starts_flag_head_not_digit (t : string) :
  head_not_digit t -> starts_flag f (String "+" (String f t)) = false.
Proof.
  intros Ht. rewrite starts_flag_plus.
  destruct t; cbn in *; [| rewrite Ht]; apply andb_false_r.
Qed.

Lemma digit_not_plus (a : ascii) : is_digit a = true -> a <> "+"%char.
Proof. intros Ha E. subst a. discriminate. Qed.

Lemma head_not_digit_drop (s : string) : head_not_digit (drop_digits s).
Proof.
  induction s as [| a s IH]; cbn; [exact I |].
  destruct (is_digit a) eqn:Ha; [exact IH | exact Ha].
Qed.

Lemma all_digits_take (s : string) : all_digits (take_digits s) = true.
Proof.
  induction s as [| a s IH]; cbn; [reflexivity |].
  destruct (is_digit a) eqn:Ha; cbn; [rewrite Ha; exact IH | reflexivity].
Qed.

Lemma take_drop (s : string) : s = take_digits s ++ drop_digits s.
Proof.
  induction s as [| a s IH]; cbn; [reflexivity |].
  destruct (is_digit a); [| reflexivity].
  rewrite append_cons. f_equal. exact IH.
Qed.

Lemma length_drop (s : string) :
  (String.length (drop_digits s) <= String.length s)%nat.
Proof.
  induction s as [| a s IH]; cbn; [lia |].
  destruct (is_digit a); cbn; lia.
Qed.

Lemma take_digits_app (ds t : string) :
  all_digits ds = true -> head_not_digit t -> take_digits (ds ++ t) = ds.
Proof.
  intros Hds Ht. induction ds as [| a ds IH].
  - rewrite append_empty.
    destruct t; cbn in *; [reflexivity | rewrite Ht; reflexivity].
  - cbn in Hds. apply andb_prop in Hds as [Ha Hds].
    rewrite append_cons. cbn [take_digits]. rewrite Ha, IH by assumption.
    reflexivity.
Qed.

Lemma drop_digits_app (ds t : string) :
  all_digits ds = true -> head_not_digit t -> drop_digits (ds ++ t) = t.
Proof.
  intros Hds Ht. induction ds as [| a ds IH].
  - rewrite append_empty.
    destruct t; cbn in *; [reflexivity | rewrite Ht; reflexivity].
  - cbn in Hds. apply andb_prop in Hds as [Ha Hds].
    rewrite append_cons. cbn [drop_digits]. rewrite Ha. apply IH; assumption.
Qed.

(** One step of the two scanners outside a match. *)

Lemma sub_from_step (repl : string) (a : ascii) (s : string) :
  sub_from f repl Outside (String a s)
  = if starts_flag f (String a s) then repl ++ sub_from f repl Letter s
    else String a (sub_from f repl Outside s).
Proof. reflexivity. Qed.

Lemma flags_from_step (a : ascii) (s : string) :
  flags_from f Outside (String a s)
  = if starts_flag f (String a s)
    then take_digits (match s with
                      | String _ ds => ds
                      | EmptyString => EmptyString
                      end) :: flags_from f Letter s
    else flags_from f Outside s.
Proof. reflexivity. Qed.

Lemma sub_from_digits (repl t : string) :
  sub_from f repl Digits t = sub_from f repl Outside (drop_digits t).
Proof.
  induction t as [| a t IH]; [reflexivity |].
  cbn [drop_digits]. destruct (is_digit a) eqn:Ha.
  - rewrite <- IH. cbn [sub_from]. rewrite Ha. reflexivity.
  - cbn [sub_from]. rewrite Ha. reflexivity.
Qed.

Lemma flags_from_digits (t : string) :
  flags_from f Digits t = flags_from f Outside (drop_digits t).
Proof.
  induction t as [| a t IH]; [reflexivity |].
  cbn [drop_digits]. destruct (is_digit a) eqn:Ha.
  - rewrite <- IH. cbn [flags_from]. rewrite Ha. reflexivity.
  - cbn [flags_from]. rewrite Ha. reflexivity.
Qed.

Lemma sub_at_flag (repl s2 : string) :
  starts_flag f (String "+" (String f s2)) = true ->
  sub_from f repl Outside (String "+" (String f s2))
  = repl ++ sub_from f repl Outside (drop_digits s2).
Proof.
  intros E. rewrite sub_from_step, E. f_equal.
  cbn [sub_from]. apply sub_from_digits.
Qed.

Lemma flags_at_flag (s2 : string) :
  starts_flag f (String "+" (String f s2)) = true ->
  flags_from f Outside (String "+" (String f s2))
  = take_digits s2 :: flags_from f Outside (drop_digits s2).
Proof.
  intros E. rewrite flags_from_step, E. f_equal.
  cbn [flags_from]. apply flags_from_digits.
Qed.

Lemma sub_no_flag (repl : string) (a : ascii) (s : string) :
  starts_flag f (String a s) = false ->
  sub_from f repl Outside (String a s)
  = String a (sub_from f repl Outside s).
Proof. intros E. rewrite sub_from_step, E. reflexivity. Qed.

Lemma flags_no_flag (a : ascii) (s : string) :
  starts_flag f (String a s) = false ->
  flags_from f Outside (String a s) = flags_from f Outside s.
Proof. intros E. rewrite flags_from_step, E. reflexivity. Qed.

(** Digits pass through both scanners. *)

Lemma sub_digits_app (repl ds t : string) :
  all_digits ds = true ->
  sub_from f repl Outside (ds ++ t) = ds ++ sub_from f repl Outside t.
Proof.
  intros Hds. induction ds as [| a ds IH]; [reflexivity |].
  cbn in Hds. apply andb_prop in Hds as [Ha Hds].
  change (String a ds ++ t) with (String a (ds ++ t)).
  rewrite sub_no_flag by (apply starts_flag_other, digit_not_plus, Ha).
  rewrite IH by assumption. reflexivity.
Qed.

Lemma flags_digits_app (ds t : string) :
  all_digits ds = true ->
  flags_from f Outside (ds ++ t) = flags_from f Outside t.
Proof.
  intros Hds. induction ds as [| a ds IH]; [reflexivity |].
  cbn in Hds. apply andb_prop in Hds as [Ha Hds].
  change (String a ds ++ t) with (String a (ds ++ t)).
  rewrite flags_no_flag by (apply starts_flag_other, digit_not_plus, Ha).
  apply IH. assumption.
Qed.

(** The head of what the substitution writes. *)

Lemma sub_head (repl' : string) (a : ascii) (s : string) :
  exists rest,
    sub_from f (String "+" repl') Outside (String a s)
    = String (if starts_flag f (String a s) then "+"%char else a) rest.
Proof.
  rewrite sub_from_step. destruct (starts_flag f (String a s)); eexists;
    reflexivity.
Qed.

Lemma sub_head_not_digit (repl' s : string) :
  head_not_digit s ->
  head_not_digit (sub_from f (String "+" repl') Outside s).
Proof.
  destruct s as [| a s]; [intros; exact I |]. intros Ha.
  destruct (sub_head repl' a s) as [rest ->].
  destruct (starts_flag f (String a s)); [reflexivity | exact Ha].
Qed.
End Flags.

Section Substitution.
Import Re.
Variables f g : ascii.
Hypothesis Hf : letter f.
Hypothesis Hg : letter g.
Variable ds : string.
Hypothesis Hds : all_digits ds = true.
Hypothesis Hne : ds <> "".

Local Abbreviation repl := (String "+" (String g ds)).

Lemma third_not_digit (t : string) :
  head_not_digit t ->
  match t with
  | String d _ => is_digit d
  | EmptyString => false
  end = false.
Proof. destruct t; cbn; [reflexivity | intros E; exact E]. Qed.

Lemma no_flag_after_sub (a : ascii) (s : string) :
  starts_flag f (String a s) = false ->
  starts_flag f (String a (sub_from g repl Outside s)) = false.
Proof.
  destruct (ascii_dec a "+") as [-> | Ha];
    [| intros _; apply starts_flag_other; assumption].
  destruct s as [| b s]; [intros _; reflexivity |].
  rewrite starts_flag_plus. intros E.
  destruct (starts_flag g (String b s)) eqn:Eg.
  - destruct (sub_head g (String g ds) b s) as [rest Hrest].
    rewrite Hrest, Eg, starts_flag_plus.
    destruct Hf as [_ Hplus]. apply not_eq_sym, Ascii.eqb_neq in Hplus.
    rewrite Hplus. reflexivity.
  - rewrite (sub_no_flag g repl b s Eg), starts_flag_plus.
    apply andb_false_iff in E as [E | E]; [rewrite E; reflexivity |].
    rewrite third_not_digit; [apply andb_false_r |].
    apply sub_head_not_digit.
    destruct s; cbn in *; [exact I | exact E].
Qed.

Lemma repl_starts_flag (t : string) :
  starts_flag g (String "+" (String g (ds ++ t))) = true.
Proof.
  rewrite starts_flag_plus, Ascii.eqb_refl.
  destruct ds as [| d ds']; [congruence |].
  cbn in Hds. apply andb_prop in Hds as [Hd _].
  rewrite append_cons. exact Hd.
Qed.

(** The flags of letter [f] after every flag of letter [g] was given the
    digits [ds]: those digits for every flag when [f] is [g], and the
    flags as they were otherwise. *)
Lemma flags_sub_length (n : nat) (s : string) :
  (String.length s <= n)%nat ->
  flags_from f Outside (sub_from g repl Outside s)
  = if Ascii.eqb f g then map (fun _ => ds) (flags_from f Outside s)
    else flags_from f Outside s.
Proof.
  revert s. induction n as [| n IH]; intros s Hn.
  { destruct s; [| cbn in Hn; lia]. destruct (Ascii.eqb f g); reflexivity. }
  destruct s as [| a s]; [destruct (Ascii.eqb f g); reflexivity |].
  cbn in Hn.
  destruct (starts_flag g (String a s)) eqn:Eg.
  - (* a flag of letter g starts here *)
    destruct (starts_flag_inv g _ Eg) as (d & s2 & E & Hd).
    injection E as -> ->.
    pose proof (length_drop (String d s2)) as Hlen.
    assert (Hpost :
      head_not_digit (sub_from g repl Outside (drop_digits (String d s2))))
      by apply sub_head_not_digit, head_not_digit_drop.
    rewrite (sub_at_flag g repl _ Eg).
    rewrite !append_cons.
    destruct (ascii_dec f g) as [-> | Hfg].
    + rewrite (flags_at_flag g _ (repl_starts_flag _)).
      rewrite (flags_at_flag g _ Eg).
      rewrite take_digits_app, drop_digits_app by assumption.
      rewrite IH by (cbn in *; lia).
      rewrite Ascii.eqb_refl. reflexivity.
    + assert (Hno : forall t, starts_flag f (String "+" (String g t)) = false).
      { intros t. rewrite starts_flag_plus.
        apply not_eq_sym, Ascii.eqb_neq in Hfg. rewrite Hfg. reflexivity. }
      rewrite !(flags_no_flag f _ _ (Hno _)).
      rewrite !(flags_no_flag f g) by (apply starts_flag_other, Hg).
      rewrite flags_digits_app by assumption.
      rewrite IH by (cbn in *; lia).
      apply Ascii.eqb_neq in Hfg. rewrite Hfg.
      rewrite (take_drop (String d s2)) at 2.
      rewrite flags_digits_app by apply all_digits_take. reflexivity.
  - (* no flag of letter g starts here *)
    rewrite (sub_no_flag g repl _ _ Eg).
    destruct (starts_flag f (String a s)) eqn:Ef.
    + destruct (starts_flag_inv f _ Ef) as (d & s2 & E & Hd).
      injection E as -> ->.
      assert (Hfg : f <> g) by (intros ->; congruence).
      pose proof (length_drop (String d s2)) as Hlen.
      rewrite (sub_no_flag g repl f)
        by (apply starts_flag_other, Hf).
      rewrite (take_drop (String d s2)) at 1.
      rewrite sub_digits_app by apply all_digits_take.
      assert (Hflag : starts_flag f
                (String "+" (String f (take_digits (String d s2)
                   ++ sub_from g repl Outside (drop_digits (String d s2)))))
              = true).
      { rewrite starts_flag_plus, Ascii.eqb_refl. cbn [take_digits].
        rewrite Hd, append_cons. exact Hd. }
      rewrite (flags_at_flag f _ Hflag), (flags_at_flag f _ Ef).
      rewrite take_digits_app, drop_digits_app;
        try apply all_digits_take;
        try apply sub_head_not_digit, head_not_digit_drop.
      rewrite IH by (cbn in *; lia).
      apply Ascii.eqb_neq in Hfg. rewrite Hfg. reflexivity.
    + rewrite (flags_no_flag f _ _ (no_flag_after_sub _ _ Ef)).
      rewrite (flags_no_flag f _ _ Ef).
      apply IH. lia.
Qed.
End Substitution.

Section Append.
Import Re.
Variable f : ascii.
Hypothesis Hf : letter f.

(** Text that starts with neither a digit nor the letter of the flag adds
    its own flags to those before it. *)
Lemma flags_app_length (n : nat) (s : string) (c : ascii) (t : string) :
  is_digit c = false -> c <> f ->
  (String.length s <= n)%nat ->
  flags_from f Outside (s ++ String c t)
  = (flags_from f Outside s ++ flags_from f Outside (String c t))%list.
Proof.
  intros Hc Hcf. revert s. induction n as [| n IH]; intros s Hn.
  { destruct s; [reflexivity | cbn in Hn; lia]. }
  destruct s as [| a s]; [reflexivity |]. cbn in Hn.
  rewrite append_cons.
  destruct (starts_flag f (String a s)) eqn:Ef.
  - destruct (starts_flag_inv f _ Ef) as (d & s2 & E & Hd).
    injection E as -> ->.
    pose proof (length_drop (String d s2)) as Hlen.
    rewrite !append_cons.
    assert (Hflag :
      starts_flag f (String "+" (String f (String d (s2 ++ String c t))))
      = true) by (rewrite starts_flag_plus, Ascii.eqb_refl; exact Hd).
    rewrite (flags_at_flag f _ Hflag), (flags_at_flag f _ Ef).
    rewrite <- append_cons.
    rewrite (take_drop (String d s2)) at 1 2.
    rewrite !append_assoc.
    assert (Hhead : head_not_digit (drop_digits (String d s2) ++ String c t)).
    { pose proof (head_not_digit_drop (String d s2)) as Hdrop.
      destruct (drop_digits (String d s2)); [exact Hc | exact Hdrop]. }
    rewrite take_digits_app, drop_digits_app
      by (try apply all_digits_take; exact Hhead).
    rewrite IH by (cbn in *; lia). reflexivity.
  - assert (Ef' : starts_flag f (String a (s ++ String c t)) = false).
    { destruct (ascii_dec a "+") as [-> | Ha];
        [| apply starts_flag_other; assumption].
      destruct s as [| b s].
      - rewrite append_empty, starts_flag_plus.
        apply Ascii.eqb_neq in Hcf. rewrite Hcf. reflexivity.
      - rewrite append_cons, starts_flag_plus.
        rewrite starts_flag_plus in Ef.
        apply andb_false_iff in Ef as [E | E]; [rewrite E; reflexivity |].
        destruct s as [| d s];
          [rewrite append_empty, Hc | rewrite append_cons, E];
          apply andb_false_r. }
    rewrite (flags_no_flag f _ _ Ef'), (flags_no_flag f _ _ Ef).
    apply IH. lia.
Qed.

Lemma flags_app (s : string) (c : ascii) (t : string) :
  is_digit c = false -> c <> f ->
  flags f (s ++ String c t) = (flags f s ++ flags f (String c t))%list.
Proof.
  intros Hc Hcf. apply (flags_app_length (String.length s)); auto.
Qed.

(** A text with a flag contains the two characters that start it. *)
Lemma flags_contains (s : string) :
  flags f s <> [] -> contains (String "+" (String f "")) s = true.
Proof.
  unfold flags. induction s as [| a s IH];
    [intros E; contradiction E; reflexivity |].
  intros E. cbn [contains].
  destruct (starts_flag f (String a s)) eqn:Ef.
  - destruct (starts_flag_inv f _ Ef) as (d & s2 & Es & Hd).
    rewrite Es. cbn [String.prefix].
    destruct (ascii_dec "+" "+"); [| congruence].
    destruct (ascii_dec f f); [| congruence]. reflexivity.
  - rewrite (flags_no_flag f _ _ Ef) in E. rewrite (IH E).
    apply orb_true_r.
Qed.

(** The flag that [set_size] adds when there is none. *)
Lemma flags_of_added (g : ascii) (ds : string) :
  letter g -> all_digits ds = true -> ds <> "" ->
  flags f (String "+" (String g "") ++ ds ++ " ")
  = if Ascii.eqb f g then [ds] else [].
Proof.
  intros Hg Hds Hne. unfold flags. rewrite !append_cons, append_empty.
  assert (Hsp : head_not_digit " ") by reflexivity.
  destruct (ascii_dec f g) as [-> | Hfg].
  - rewrite Ascii.eqb_refl.
    rewrite (flags_at_flag g _ (repl_starts_flag g ds Hds Hne _)).
    rewrite take_digits_app, drop_digits_app by assumption. reflexivity.
  - assert (Hno : starts_flag f (String "+" (String g (ds ++ " "))) = false).
    { rewrite starts_flag_plus.
      apply not_eq_sym, Ascii.eqb_neq in Hfg. rewrite Hfg. reflexivity. }
    rewrite (flags_no_flag f _ _ Hno).
    rewrite (flags_no_flag f g) by (apply starts_flag_other, Hg).
    rewrite flags_digits_app by assumption.
    apply Ascii.eqb_neq in Hfg. rewrite Hfg. reflexivity.
Qed.
End Append.

(** [str(n)] of a natural number is a non-empty string of digits. *)
Lemma string_of_uint_digits (d : Decimal.uint) :
  Re.all_digits (NilEmpty.string_of_uint d) = true.
Proof. induction d; cbn; try reflexivity; exact IHd. Qed.

Lemma str_int_digits (n : Z) :
  (0 <= n)%Z -> Re.all_digits (str_int n) = true /\ str_int n <> "".
Proof.
  intros Hn. unfold str_int.
  destruct n as [| p | p]; [split; [reflexivity | discriminate] | | lia].
  cbn [Z.to_int NilZero.string_of_int]. unfold NilZero.string_of_uint.
  destruct (Pos.to_uint p) eqn:E;
    try (split; [exact (string_of_uint_digits (_ u)) | discriminate]).
  split; [reflexivity | discriminate].
Qed.

Lemma set_size_same (f : ascii) (v : Z) (s : string) :
  Re.letter f -> (0 <= v)%Z -> Re.flags f s <> [] ->
  Re.flags f (Povray.set_size f v s)
  = map (fun _ => str_int v) (Re.flags f s).
Proof.
  intros Hf Hv Hs. destruct (str_int_digits v Hv) as [Hds Hne].
  unfold Povray.set_size. rewrite (flags_contains f s Hs).
  unfold Re.sub, Re.flags.
  change (String "+" (String f "") ++ str_int v)
    with (String "+" (String f (str_int v))).
  rewrite (flags_sub_length f f Hf Hf (str_int v) Hds Hne (String.length s))
    by lia.
  rewrite Ascii.eqb_refl. reflexivity.
Qed.

Lemma set_size_other (f g : ascii) (v : Z) (s : string) :
  Re.letter f -> Re.letter g -> f <> g -> (0 <= v)%Z ->
  Re.flags f (Povray.set_size g v s) = Re.flags f s.
Proof.
  intros Hf Hg Hfg Hv. destruct (str_int_digits v Hv) as [Hds Hne].
  pose proof Hfg as Hfg'. apply Ascii.eqb_neq in Hfg'.
  unfold Povray.set_size.
  destruct (contains (String "+" (String g "")) s).
  - unfold Re.sub, Re.flags.
    change (String "+" (String g "") ++ str_int v)
      with (String "+" (String g (str_int v))).
    rewrite (flags_sub_length f g Hf Hg (str_int v) Hds Hne (String.length s))
      by lia.
    rewrite Hfg'. reflexivity.
  - change (s ++ String "+" (String g "") ++ str_int v ++ " ")
      with (s ++ String "+" (String g (str_int v ++ " "))).
    rewrite flags_app;
      [| reflexivity | apply not_eq_sym; exact (proj2 Hf)].
    change (String "+" (String g (str_int v ++ " ")))
      with (String "+" (String g "") ++ str_int v ++ " ").
    rewrite (flags_of_added f Hf g (str_int v) Hg Hds Hne), Hfg'.
    apply app_nil_r.
Qed.

Lemma letter_W : Re.letter "W".
Proof. split; [reflexivity | discriminate]. Qed.

Lemma letter_H : Re.letter "H".
Proof. split; [reflexivity | discriminate]. Qed.





(** ** Materials *)

Lemma getattr_raises (v : pyval) (k : string) (e : exn) :
  getattr v k = Raise e -> e = AttributeError.
Proof.
  destruct v as [| | | | attrs]; cbn; try congruence.
  induction attrs as [| [k' v'] rest IH]; cbn; [congruence |].
  destruct (String.eqb k' k); [discriminate | exact IH].
Qed.

Lemma float_raises `{PyLib} (v : pyval) (e : exn) :
  float v = Raise e -> e = TypeError \/ e = ValueError \/ e = OverflowError.
Proof.
  destruct v as [| z | x | s | attrs]; cbn;
    try (intros [= <-]; auto); try discriminate.
  - destruct (Z.abs z <? 2 ^ 1024 - 2 ^ 970)%Z;
      [discriminate | intros [= <-]; auto].
  - destruct (float_of_str s); [discriminate | intros [= <-]; auto].
Qed.

Lemma fallback_channel_raises `{PyLib} (material : pyval) (k : string)
  (e : exn) :
  Cycles.fallback_channel material k = Raise e ->
  e = AttributeError \/ e = TypeError \/ e = ValueError
  \/ e = OverflowError.
Proof.
  unfold Cycles.fallback_channel.
  destruct (getattr material "default_color") as [c | e1] eqn:E1; cbn [bind].
  - destruct (getattr c k) as [v | e2] eqn:E2; cbn [bind].
    + intros E. apply float_raises in E. tauto.
    + intros [= <-]. apply getattr_raises in E2. auto.
  - intros [= <-]. apply getattr_raises in E1. auto.
Qed.

(** The handler of [_write_material_fallback] covers every exception of
    its [try] block but one: [OverflowError], which [float] raises on an
    [int] beyond the range of the floats. *)
Lemma write_material_fallback_result `{PyLib} (name : string)
  (material : pyval) :
  (exists red grn blu,
     Cycles._write_material_fallback name material
     = Ok (Cycles.fallback_text name red grn blu))
  \/ Cycles._write_material_fallback name material = Raise OverflowError.
Proof.
  unfold Cycles._write_material_fallback.
  destruct (Cycles.fallback_channels material) as [[[red grn] blu] | e] eqn:E;
    [eauto |].
  assert (He : e = AttributeError \/ e = TypeError \/ e = ValueError
               \/ e = OverflowError \/ e = AssertionError).
  { unfold Cycles.fallback_channels in E.
    destruct (Cycles.fallback_channel material "r") eqn:Er; cbn [bind] in E;
      [| injection E as <-; apply fallback_channel_raises in Er; tauto].
    destruct (Cycles.fallback_channel material "g") eqn:Eg; cbn [bind] in E;
      [| injection E as <-; apply fallback_channel_raises in Eg; tauto].
    destruct (Cycles.fallback_channel material "b") eqn:Eb; cbn [bind] in E;
      [| injection E as <-; apply fallback_channel_raises in Eb; tauto].
    destruct (_ && _); [discriminate | injection E as <-; tauto]. }
  destruct He as [-> | [-> | [-> | [-> | ->]]]]; eauto.
Qed.

(** The colour object [c] has no attribute [default_color]: the fallback
    that receives [c] in the place of the material is white. *)
Lemma write_material_fallback_on_colour `{PyLib} (name : string) (c : pyval) :
  raises (getattr c "default_color") = true ->
  Cycles._write_material_fallback name c
  = Ok (Cycles.fallback_text name (PyInt 1) (PyInt 1) (PyInt 1)).
Proof.
  intros Hc. unfold Cycles._write_material_fallback, Cycles.fallback_channels,
    Cycles.fallback_channel.
  destruct (getattr c "default_color") as [v | e] eqn:E; [discriminate |].
  apply getattr_raises in E. subst e. reflexivity.
Qed.

(** C1, at an input where the code fails. For a pass-through material
    whose template is written for another renderer than Cycles, the
    [assert] of [_write_material_passthrough] fails and [_write_material],
    whose handler covers [KeyError] only, lets the [AssertionError] reach
    its caller: nothing is printed and no fallback fragment is returned. *)
Theorem write_material_passthrough_other_renderer `{PyLib} (name : string)
  (material passthrough renderer : pyval) :
  getattr material "shadertype" = Ok (PyStr "Passthrough") ->
  getattr material "passthrough" = Ok passthrough ->
  getattr passthrough "renderer" = Ok renderer ->
  Cycles.is_str renderer "Cycles" = false ->
  Cycles._write_material name material = (Raise AssertionError, []).
Proof.
  intros Htag Hp Hr Hnot.
  unfold Cycles._write_material. rewrite Htag. cbn [bind].
  change (Cycles.getitem Cycles.MATERIALS (PyStr "Passthrough"))
    with (Ok Cycles._write_material_passthrough).
  cbn [bind]. unfold Cycles._write_material_passthrough.
  rewrite Hp. cbn [bind]. rewrite Hr. cbn [bind]. rewrite Hnot.
  reflexivity.
Qed.

Lemma write_material_passthrough_other_renderer_witness :
  let passthrough :=
    PyObj [ ("renderer", PyStr "Povray");
            ("string", PyStr "texture { T_Gold_1A }") ] in
  let material :=
    PyObj [ ("shadertype", PyStr "Passthrough");
            ("default_color",
             PyObj [("r", PyFloat 1); ("g", PyFloat 0); ("b", PyFloat 0)]);
            ("passthrough", passthrough) ] in
  getattr material "shadertype" = Ok (PyStr "Passthrough")
  /\ getattr material "passthrough" = Ok passthrough
  /\ getattr passthrough "renderer" = Ok (PyStr "Povray")
  /\ Cycles.is_str (PyStr "Povray") "Cycles" = false
  /\ Cycles._write_material (H := Sample.lib) "body" material
     = (Raise AssertionError, []).
Proof.
  intros passthrough material.
  repeat (split; [reflexivity |]).
  apply (write_material_passthrough_other_renderer (H := Sample.lib) "body"
           material passthrough (PyStr "Povray"));
    reflexivity.
Defined.

(** C2, at an input where the code fails. For a material of a shader type
    that Cycles does not know, [_write_material] passes the default colour
    where [_write_material_fallback] expects the material: the fragment is
    white whatever the channels [r], [g], [b] of the declared colour,
    whereas [_write_material_fallback] on the material itself carries the
    declared colour. *)
Theorem write_material_fallback_is_white `{PyLib} (name : string)
  (r g b : pyval) :
  let color := PyObj [("r", r); ("g", g); ("b", b)] in
  let material :=
    PyObj [("shadertype", PyStr "Carpaint"); ("default_color", color)] in
  Cycles._write_material name material
  = (Ok (Cycles.fallback_text name (PyInt 1) (PyInt 1) (PyInt 1)),
     [ PrintWarning ("'" ++ name ++ "' - Material 'Carpaint' unknown by "
                     ++ "renderer, using fallback material" ++ nl) ])
  /\ Cycles._write_material_fallback name
       (PyObj [ ("shadertype", PyStr "Carpaint");
                ("default_color",
                 PyObj [ ("r", PyFloat (1 / 2)); ("g", PyFloat (1 / 4));
                         ("b", PyFloat 0) ]) ])
     = Ok (Cycles.fallback_text name (PyFloat (1 / 2)) (PyFloat (1 / 4))
             (PyFloat 0)).
Proof.
  split; [reflexivity |].
  cbv [Cycles._write_material_fallback Cycles.fallback_channels
       Cycles.fallback_channel getattr lookup_attr String.eqb Ascii.eqb
       Bool.eqb bind float Cycles.in_unit].
  repeat (destruct (Rle_dec _ _); [| exfalso; lra]).
  reflexivity.
Qed.

(** ** Area light *)

(** Half the smallest positive float. *)
Lemma half_ulp_pos : (0 < / 2 ^ 1075)%R.
Proof. apply Rinv_0_lt_compat, pow_lt. lra. Qed.

Lemma mul_exact (a b : R) :
  (/ 2 ^ 1075 < Rabs (a * b))%R -> mul a b = (a * b)%R.
Proof.
  intros Hab. unfold mul.
  destruct (Rle_dec (Rabs (a * b)) (/ 2 ^ 1075)); [lra | reflexivity].
Qed.

Lemma mul_zero (a b : R) : (a * b = 0)%R -> mul a b = 0%R.
Proof.
  intros Hab. unfold mul. rewrite Hab, Rabs_R0.
  destruct (Rle_dec 0 (/ 2 ^ 1075)) as [_ | Hn]; [reflexivity |].
  contradiction Hn. apply Rlt_le, half_ulp_pos.
Qed.

Lemma strength_opaque (power size_u size_v : R) :
  (/ 2 ^ 1075 < Rabs (size_u * size_v))%R ->
  Cycles.emitted_strength power size_u size_v false
  = Ok (power / (size_u * size_v) * 100)%R.
Proof.
  intros Harea. unfold Cycles.emitted_strength, Cycles.strength, div.
  rewrite (mul_exact _ _ Harea).
  destruct (Req_dec_T (size_u * size_v) 0) as [E | _]; [| reflexivity].
  rewrite E, Rabs_R0 in Harea. pose proof half_ulp_pos. lra.
Qed.

(** C8. The strength that [write_arealight] of Cycles writes in the
    attribute [strength] of the emission shader, the rest of the fragment
    being the same whatever the power. For a transparent light it is the
    power times the factor 100, so twice the power gives twice the
    strength. For an opaque light whose area [size_u * size_v] is not
    rounded to zero it is the power divided by the area, times 100, so an
    area twice as large gives half the strength, the text before the
    attribute being the same. *)
Theorem arealight_emitted_strength `{PyLib} (name : string)
  (pos : FreeCAD.placement) (size_u size_v size_u' size_v' : R)
  (color : R * R * R) :
  (/ 2 ^ 1075 < Rabs (size_u * size_v))%R ->
  (size_u' * size_v' = 2 * (size_u * size_v))%R ->
  let field (s : R) := "strength=" ++ q (str_float s) ++ "/>" in
  (exists head tail, forall power,
      Cycles.write_arealight name pos size_u size_v color power true
      = Ok (head ++ field (power * 100)%R ++ tail)
      /\ Cycles.write_arealight name pos size_u size_v color (2 * power) true
         = Ok (head ++ field (2 * (power * 100))%R ++ tail))
  /\ (exists head tail tail', forall power,
        Cycles.write_arealight name pos size_u size_v color power false
        = Ok (head ++ field (power / (size_u * size_v) * 100)%R ++ tail)
        /\ Cycles.write_arealight name pos size_u' size_v' color power false
           = Ok (head ++ field (power / (size_u * size_v) * 100 / 2)%R
                   ++ tail')).
Proof.
  intros Harea Hdouble field.
  assert (Harea' : (/ 2 ^ 1075 < Rabs (size_u' * size_v'))%R).
  { rewrite Hdouble, Rabs_mult, (Rabs_pos_eq 2) by lra.
    pose proof half_ulp_pos. lra. }
  destruct color as [[c0 c1] c2].
  subst field. cbn beta. split.
  - exists (nl ++ "    <!-- Generated by FreeCAD - Area light '" ++ name
            ++ "' (transparent) -->" ++ nl
            ++ "    <shader name=" ++ q (name ++ "_shader") ++ ">" ++ nl
            ++ "        <emission name=" ++ q (name ++ "_emit") ++ nl
            ++ "                  color="
            ++ q (str_float c0 ++ " " ++ str_float c1 ++ " " ++ str_float c2)
            ++ nl ++ "                  ").
    eexists. intros power.
    unfold Cycles.write_arealight.
    cbn [Cycles.emitted_strength Cycles.strength bind].
    unfold Cycles.arealight_text_transparent, Cycles.emission_lines.
    cbn [app unlines].
    replace (2 * power * 100)%R with (2 * (power * 100))%R by lra.
    rewrite !append_assoc. split; reflexivity.
  - exists (nl ++ "    <!-- Generated by FreeCAD - Area light '" ++ name
            ++ "' (opaque) -->" ++ nl
            ++ "    <shader name=" ++ q (name ++ "_shader")
            ++ " use_mis=" ++ q "true" ++ ">" ++ nl
            ++ "        <emission name=" ++ q (name ++ "_emit") ++ nl
            ++ "                  color="
            ++ q (str_float c0 ++ " " ++ str_float c1 ++ " " ++ str_float c2)
            ++ nl ++ "                  ").
    do 2 eexists. intros power.
    unfold Cycles.write_arealight.
    rewrite (strength_opaque power _ _ Harea),
      (strength_opaque power _ _ Harea').
    cbn [bind].
    replace (power / (size_u' * size_v') * 100)%R
      with (power / (size_u * size_v) * 100 / 2)%R.
    2:{ assert (Hne : (size_u * size_v <> 0)%R).
        { intros E. rewrite E, Rabs_R0 in Harea.
          pose proof half_ulp_pos. lra. }
        rewrite Hdouble. field.
        repeat split; intros E; apply Hne; rewrite E; ring. }
    unfold Cycles.arealight_text_opaque, Cycles.emission_lines.
    cbn [app unlines].
    rewrite !append_assoc. split; reflexivity.
Qed.

Lemma arealight_emitted_strength_witness :
  (/ 2 ^ 1075 < Rabs (1 * 1))%R /\ (2 * 1 = 2 * (1 * 1))%R
  /\ exists head tail tail', forall power,
       Cycles.write_arealight (H := Sample.lib) "lamp"
         Sample.placement_at_origin 1 1 (1, 1, 1)%R power false
       = Ok (head
               ++ ("strength="
                   ++ q (Sample.str_float (power / (1 * 1) * 100)) ++ "/>")
               ++ tail)
       /\ Cycles.write_arealight (H := Sample.lib) "lamp"
            Sample.placement_at_origin 2 1 (1, 1, 1)%R power false
          = Ok (head
                  ++ ("strength="
                      ++ q (Sample.str_float (power / (1 * 1) * 100 / 2))
                      ++ "/>")
                  ++ tail').
Proof.
  assert (Hone : (/ 2 ^ 1075 < Rabs (1 * 1))%R).
  { rewrite Rmult_1_r, Rabs_R1, <- Rinv_1.
    apply Rinv_lt_contravar; [| apply Rlt_pow_R1; [lra | lia]].
    rewrite Rmult_1_l. apply pow_lt. lra. }
  split; [exact Hone |]. split; [lra |].
  apply (arealight_emitted_strength (H := Sample.lib) "lamp"
           Sample.placement_at_origin 1 1 2 1 (1, 1, 1)%R Hone).
  lra.
Defined.

(** ** Meshes *)



(** ** Sun and sky *)

Lemma Length_nonneg (v : FreeCAD.Vector) : (0 <= FreeCAD.Length v)%R.
Proof. apply sqrt_pos. Qed.

Lemma Length_scale (k : R) (v : FreeCAD.Vector) :
  (0 <= k)%R -> FreeCAD.Length (FreeCAD.scale k v) = (k * FreeCAD.Length v)%R.
Proof.
  intros Hk. destruct v as [a b c].
  cbv [FreeCAD.Length FreeCAD.scale FreeCAD.x FreeCAD.y FreeCAD.z].
  replace (a * k * (a * k) + b * k * (b * k) + c * k * (c * k))%R
    with (k * k * (a * a + b * b + c * c))%R by ring.
  rewrite sqrt_mult by nra. rewrite sqrt_square by assumption. reflexivity.
Qed.

Lemma Length_normalized (v : FreeCAD.Vector) :
  FreeCAD.Length v <> 0%R ->
  FreeCAD.Length (FreeCAD.scale (1 / FreeCAD.Length v) v) = 1%R.
Proof.
  intros Hv. pose proof (Length_nonneg v) as Hpos.
  rewrite Length_scale.
  - field. assumption.
  - apply Rlt_le. apply Rdiv_lt_0_compat; lra.
Qed.

Lemma z_over_Length (v : FreeCAD.Vector) :
  FreeCAD.Length v <> 0%R ->
  (-1 <= FreeCAD.z v / FreeCAD.Length v <= 1)%R.
Proof.
  intros Hv. pose proof (Length_nonneg v) as Hpos.
  assert (Hz : (Rabs (FreeCAD.z v) <= FreeCAD.Length v)%R).
  { rewrite <- sqrt_Rsqr_abs. apply sqrt_le_1_alt. unfold Rsqr.
    destruct v as [a b c]; cbn. nra. }
  assert (HL : (0 < FreeCAD.Length v)%R) by lra.
  pose proof (Rle_abs (FreeCAD.z v)) as Hup.
  pose proof (Rle_abs (- FreeCAD.z v)) as Hlow.
  rewrite Rabs_Ropp in Hlow.
  split.
  - apply Rmult_le_reg_r with (FreeCAD.Length v); [assumption |].
    unfold Rdiv. rewrite Rmult_assoc, Rinv_l by assumption. lra.
  - apply Rmult_le_reg_r with (FreeCAD.Length v); [assumption |].
    unfold Rdiv. rewrite Rmult_assoc, Rinv_l by assumption. lra.
Qed.

Lemma atan2_scale (k a b : R) :
  (0 < k)%R -> atan2 (a * k) (b * k) = atan2 a b.
Proof.
  intros Hk. unfold atan2.
  assert (Hq : b <> 0%R -> (a * k / (b * k) = a / b)%R) by (intros; field; lra).
  destruct (Rlt_dec 0 b) as [Hb | Hb].
  - destruct (Rlt_dec 0 (b * k)) as [_ | N]; [| exfalso; nra].
    rewrite Hq by lra. reflexivity.
  - destruct (Rlt_dec 0 (b * k)) as [P | _]; [exfalso; nra |].
    destruct (Rlt_dec b 0) as [Hb' | Hb'].
    + destruct (Rlt_dec (b * k) 0) as [_ | N]; [| exfalso; nra].
      rewrite Hq by lra.
      destruct (Rle_dec 0 a), (Rle_dec 0 (a * k)); try reflexivity;
        exfalso; nra.
    + destruct (Rlt_dec (b * k) 0) as [P | _]; [exfalso; nra |].
      destruct (Rlt_dec 0 a), (Rlt_dec 0 (a * k)); try (exfalso; nra);
        try reflexivity.
      destruct (Rlt_dec a 0), (Rlt_dec (a * k) 0); try (exfalso; nra);
        reflexivity.
Qed.

Lemma cycles_sunsky_angles_run (direction : FreeCAD.ref)
  (h : gmap FreeCAD.ref FreeCAD.Vector) (d : FreeCAD.Vector) :
  h !! direction = Some d ->
  FreeCAD.Length d <> 0%R ->
  Cycles.sunsky_angles direction h
  = Ok (asin (FreeCAD.z d / FreeCAD.Length d),
        atan2 (FreeCAD.x d) (FreeCAD.y d),
        <[fresh (dom h) := FreeCAD.scale (1 / FreeCAD.Length d) d]> h).
Proof.
  intros Hd HL.
  pose proof (Length_nonneg d) as Hpos.
  pose proof (Length_normalized d HL) as Hone.
  pose proof (z_over_Length d HL) as [Hlow Hup].
  assert (Hk : (0 < 1 / FreeCAD.Length d)%R)
    by (apply Rdiv_lt_0_compat; lra).
  unfold Cycles.sunsky_angles, FreeCAD.read. rewrite Hd. cbn [bind].
  destruct (Req_dec_T (FreeCAD.Length d) 0) as [E | _]; [contradiction |].
  unfold FreeCAD.Vector_copy, FreeCAD.read. rewrite Hd. cbn [bind fst snd].
  unfold FreeCAD.normalize, FreeCAD.read.
  rewrite lookup_insert_eq. cbn [bind fst snd].
  destruct (Req_dec_T (FreeCAD.Length d) 0) as [E | _]; [contradiction |].
  cbn [bind fst snd]. rewrite lookup_insert_eq. cbn [bind].
  unfold Cycles.sun_angles.
  change (sqrt _)
    with (FreeCAD.Length (FreeCAD.scale (1 / FreeCAD.Length d) d)).
  rewrite Hone. unfold div.
  destruct (Req_dec_T 1 0) as [E | _]; [lra |]. cbn [bind].
  replace (FreeCAD.z (FreeCAD.scale (1 / FreeCAD.Length d) d) / 1)%R
    with (FreeCAD.z d / FreeCAD.Length d)%R
    by (destruct d; cbn; field; assumption).
  unfold math_asin.
  destruct (Rle_dec (-1) (FreeCAD.z d / FreeCAD.Length d)) as [_ | N];
    [| contradiction].
  destruct (Rle_dec (FreeCAD.z d / FreeCAD.Length d) 1) as [_ | N];
    [| contradiction].
  cbn [bind fst snd].
  replace (atan2 _ _) with (atan2 (FreeCAD.x d) (FreeCAD.y d))
    by (destruct d; cbn [FreeCAD.x FreeCAD.y FreeCAD.scale];
        symmetry; apply atan2_scale; assumption).
  rewrite insert_insert_eq. reflexivity.
Qed.

Lemma Length_axis (k : R) :
  (0 <= k)%R -> FreeCAD.Length (FreeCAD.mkVector 0 0 k) = k.
Proof.
  intros Hk. cbv [FreeCAD.Length FreeCAD.x FreeCAD.y FreeCAD.z].
  replace (0 * 0 + 0 * 0 + k * k)%R with (k * k)%R by ring.
  apply sqrt_square. assumption.
Qed.







(** What [write_sunskylight] of POV-Ray does to the heap: the vector that
    [direction] refers to is scaled to the length [distance]. *)
Lemma povray_sunskylight_run `{PyLib} (name : string)
  (direction : FreeCAD.ref) (distance turbidity : R)
  (h : gmap FreeCAD.ref FreeCAD.Vector) (d : FreeCAD.Vector) :
  h !! direction = Some d ->
  FreeCAD.Length d <> 0%R ->
  Povray.write_sunskylight name direction distance turbidity h
  = Ok (Povray.sunsky_text name
          (FreeCAD.scale (distance / FreeCAD.Length d) d),
        <[direction := FreeCAD.scale (distance / FreeCAD.Length d) d]> h).
Proof.
  intros Hd HL.
  pose proof (Length_normalized d HL) as Hone.
  unfold Povray.write_sunskylight, FreeCAD.normalize, FreeCAD.read.
  rewrite Hd. cbn [bind].
  destruct (Req_dec_T (FreeCAD.Length d) 0) as [E | _]; [contradiction |].
  cbn [bind fst snd]. unfold FreeCAD.set_Length, FreeCAD.read.
  rewrite lookup_insert_eq. cbn [bind]. rewrite Hone.
  destruct (Req_dec_T 1 0) as [E | _]; [exfalso; lra |].
  cbn [bind]. rewrite lookup_insert_eq. cbn [bind].
  rewrite insert_insert_eq.
  replace (FreeCAD.scale (distance / 1)
             (FreeCAD.scale (1 / FreeCAD.Length d) d))
    with (FreeCAD.scale (distance / FreeCAD.Length d) d)
    by (destruct d; cbv [FreeCAD.scale FreeCAD.x FreeCAD.y FreeCAD.z];
        f_equal; field; assumption).
  reflexivity.
Qed.

(** X12. What [write_sunskylight] of Cycles does to the heap: it adds the
    normalised copy, and every vector that was there is as it was. *)
Lemma cycles_sunskylight_keeps_vectors `{PyLib} (sunlight : R -> R -> pyval)
  (name : string) (direction : FreeCAD.ref) (distance turbidity albedo : R)
  (h : gmap FreeCAD.ref FreeCAD.Vector) (d : FreeCAD.Vector) :
  h !! direction = Some d ->
  FreeCAD.Length d <> 0%R ->
  exists text h',
    Cycles.write_sunskylight sunlight name direction distance turbidity
      albedo h = Ok (text, h')
    /\ forall l v, h !! l = Some v -> h' !! l = Some v.
Proof.
  intros Hd HL. unfold Cycles.write_sunskylight.
  rewrite (cycles_sunsky_angles_run direction h d Hd HL). cbn [bind].
  eexists _, _. split; [reflexivity |].
  intros l v Hl. rewrite lookup_insert_ne; [assumption |].
  intros E. subst l.
  pose proof (is_fresh (dom h)) as Hfresh.
  apply Hfresh. apply elem_of_dom. eauto.
Qed.

(** C6, at an input where the code fails. [write_sunskylight] of POV-Ray
    normalises and rescales the vector of the caller: a direction
    [(0, 0, 2)] passed with the distance 10 is [(0, 0, 10)] after the
    call. *)
Theorem povray_sunskylight_overwrites_direction `{PyLib} (name : string)
  (turbidity : R) :
  Povray.write_sunskylight name 0%nat 10 turbidity
    {[ 0%nat := FreeCAD.mkVector 0 0 2 ]}
  = Ok (Povray.sunsky_text name (FreeCAD.mkVector 0 0 10),
        {[ 0%nat := FreeCAD.mkVector 0 0 10 ]}).
Proof.
  assert (HL : FreeCAD.Length (FreeCAD.mkVector 0 0 2) = 2%R)
    by (apply Length_axis; lra).
  rewrite (povray_sunskylight_run name 0%nat 10 turbidity _
             (FreeCAD.mkVector 0 0 2)).
  - rewrite HL.
    replace (FreeCAD.scale (10 / 2) (FreeCAD.mkVector 0 0 2))
      with (FreeCAD.mkVector 0 0 10)
      by (cbv [FreeCAD.scale FreeCAD.x FreeCAD.y FreeCAD.z]; f_equal; field).
    rewrite insert_singleton_eq. reflexivity.
  - apply lookup_singleton_eq.
  - rewrite HL. lra.
Qed.

(** * Further properties *)

(** ** Further properties of the size flags *)

Section MoreFlags.
Import Re.
Variable f : ascii.
Hypothesis Hf : letter f.

Local Abbreviation flag := (String "+" (String f "")).

Lemma prefix_flag (s : string) :
  String.prefix flag s
  = match s with
    | String a (String b _) => Ascii.eqb a "+" && Ascii.eqb b f
    | _ => false
    end.
Proof.
  destruct s as [| a [| b t]]; cbn [String.prefix].
  - reflexivity.
  - destruct (ascii_dec "+" a) as [<- | N]; reflexivity.
  - destruct (ascii_dec "+" a) as [<- | N].
    + rewrite Ascii.eqb_refl. cbn [andb].
      destruct (ascii_dec f b) as [<- | N].
      * rewrite Ascii.eqb_refl. destruct t; reflexivity.
      * apply not_eq_sym, Ascii.eqb_neq in N. rewrite N. reflexivity.
    + apply not_eq_sym, Ascii.eqb_neq in N. rewrite N. reflexivity.
Qed.

Lemma contains_flag_app (s : string) (c : ascii) (t : string) :
  c <> f ->
  contains flag s = false ->
  contains flag (s ++ String c t) = contains flag (String c t).
Proof.
  intros Hc. induction s as [| a s IH]; [reflexivity |].
  cbn [contains]. intros E. apply orb_false_iff in E as [Ep Es].
  rewrite append_cons. cbn [contains]. rewrite (IH Es).
  replace (String.prefix flag (String a (s ++ String c t))) with false;
    [reflexivity |].
  symmetry. rewrite prefix_flag in *.
  destruct s as [| b s].
  - rewrite append_empty. apply Ascii.eqb_neq in Hc. rewrite Hc.
    apply andb_false_r.
  - rewrite append_cons. exact Ep.
Qed.

Lemma contains_flag_digits (ds t : string) :
  all_digits ds = true ->
  contains flag (ds ++ t) = contains flag t.
Proof.
  intros Hds. induction ds as [| a ds IH]; [reflexivity |].
  cbn in Hds. apply andb_prop in Hds as [Ha Hds].
  rewrite append_cons. cbn [contains]. rewrite (IH Hds), prefix_flag.
  pose proof (digit_not_plus a Ha) as Hp. apply Ascii.eqb_neq in Hp.
  destruct (ds ++ t); rewrite ?Hp; reflexivity.
Qed.

(** Without the two characters that start a flag there is no flag. *)
Lemma flags_absent (s : string) : contains flag s = false -> flags f s = [].
Proof.
  intros E. destruct (flags f s) eqn:Efl; [reflexivity |].
  rewrite (flags_contains f s) in E; [discriminate |].
  rewrite Efl. discriminate.
Qed.

(** Where there is no flag, the substitution changes nothing. *)
Lemma sub_unchanged (repl s : string) : flags f s = [] -> sub f repl s = s.
Proof.
  unfold flags, sub. induction s as [| a s IH]; [reflexivity |].
  destruct (starts_flag f (String a s)) eqn:Ef.
  - rewrite flags_from_step, Ef. discriminate.
  - rewrite (flags_no_flag f _ _ Ef), (sub_no_flag f _ _ _ Ef).
    intros E. rewrite (IH E). reflexivity.
Qed.

Lemma sub_app_length (repl' : string) (n : nat) (s : string) (c : ascii)
  (t : string) :
  is_digit c = false -> c <> f ->
  (String.length s <= n)%nat ->
  sub_from f (String "+" repl') Outside (s ++ String c t)
  = sub_from f (String "+" repl') Outside s
    ++ sub_from f (String "+" repl') Outside (String c t).
Proof.
  intros Hc Hcf. revert s. induction n as [| n IH]; intros s Hn.
  { destruct s; [reflexivity | cbn in Hn; lia]. }
  destruct s as [| a s]; [reflexivity |]. cbn in Hn.
  rewrite append_cons.
  destruct (starts_flag f (String a s)) eqn:Ef.
  - destruct (starts_flag_inv f _ Ef) as (d & s2 & E & Hd).
    injection E as -> ->.
    pose proof (length_drop (String d s2)) as Hlen.
    rewrite !append_cons.
    assert (Hflag :
      starts_flag f (String "+" (String f (String d (s2 ++ String c t))))
      = true) by (rewrite starts_flag_plus, Ascii.eqb_refl; exact Hd).
    rewrite (sub_at_flag f _ _ Hflag), (sub_at_flag f _ _ Ef).
    rewrite <- append_cons.
    rewrite (take_drop (String d s2)) at 1.
    rewrite !append_assoc.
    assert (Hhead : head_not_digit (drop_digits (String d s2) ++ String c t)).
    { pose proof (head_not_digit_drop (String d s2)) as Hdrop.
      destruct (drop_digits (String d s2)); [exact Hc | exact Hdrop]. }
    rewrite drop_digits_app by (try apply all_digits_take; exact Hhead).
    rewrite IH by (cbn in *; lia). rewrite ?append_cons, ?append_assoc.
    reflexivity.
  - assert (Ef' : starts_flag f (String a (s ++ String c t)) = false).
    { destruct (ascii_dec a "+") as [-> | Ha];
        [| apply starts_flag_other; assumption].
      destruct s as [| b s].
      - rewrite append_empty, starts_flag_plus.
        apply Ascii.eqb_neq in Hcf. rewrite Hcf. reflexivity.
      - rewrite append_cons, starts_flag_plus.
        rewrite starts_flag_plus in Ef.
        apply andb_false_iff in Ef as [E | E]; [rewrite E; reflexivity |].
        destruct s as [| d s];
          [rewrite append_empty, Hc | rewrite append_cons, E];
          apply andb_false_r. }
    rewrite (sub_no_flag f _ _ _ Ef'), (sub_no_flag f _ _ _ Ef).
    rewrite IH by lia. reflexivity.
Qed.

(** Substituting twice is substituting once, with the second value. *)
Lemma sub_sub_length (ds1 ds2 : string) (n : nat) (s : string) :
  all_digits ds1 = true -> ds1 <> "" ->
  (String.length s <= n)%nat ->
  sub_from f (String "+" (String f ds2)) Outside
    (sub_from f (String "+" (String f ds1)) Outside s)
  = sub_from f (String "+" (String f ds2)) Outside s.
Proof.
  intros H1 N1. revert s. induction n as [| n IH]; intros s Hn.
  { destruct s; [reflexivity | cbn in Hn; lia]. }
  destruct s as [| a s]; [reflexivity |]. cbn in Hn.
  destruct (starts_flag f (String a s)) eqn:Ef.
  - destruct (starts_flag_inv f _ Ef) as (d & s2 & E & Hd).
    injection E as -> ->.
    pose proof (length_drop (String d s2)) as Hlen.
    rewrite !(sub_at_flag f _ _ Ef). rewrite !append_cons.
    rewrite (sub_at_flag f _ _ (repl_starts_flag f ds1 H1 N1 _)).
    rewrite drop_digits_app;
      [| assumption | apply sub_head_not_digit, head_not_digit_drop].
    rewrite IH by (cbn in *; lia). reflexivity.
  - rewrite (sub_no_flag f _ _ _ Ef).
    rewrite (sub_no_flag f _ _ _ (no_flag_after_sub f f Hf ds1 _ _ Ef)).
    rewrite (sub_no_flag f _ _ _ Ef).
    rewrite IH by lia. reflexivity.
Qed.
End MoreFlags.

Lemma set_size_absent (f : ascii) (v : Z) (s : string) :
  Re.letter f -> (0 <= v)%Z ->
  contains (String "+" (String f "")) s = false ->
  Povray.set_size f v s = s ++ String "+" (String f "") ++ str_int v ++ " "
  /\ Re.flags f (Povray.set_size f v s) = [str_int v].
Proof.
  intros Hf Hv Hs. destruct (str_int_digits v Hv) as [Hds Hne].
  unfold Povray.set_size. rewrite Hs. split; [reflexivity |].
  change (s ++ String "+" (String f "") ++ str_int v ++ " ")
    with (s ++ String "+" (String f (str_int v ++ " "))).
  rewrite flags_app; [| reflexivity | apply not_eq_sym; exact (proj2 Hf)].
  rewrite (flags_absent f s Hs).
  change (String "+" (String f (str_int v ++ " ")))
    with (String "+" (String f "") ++ str_int v ++ " ").
  rewrite (flags_of_added f Hf f (str_int v) Hf Hds Hne), Ascii.eqb_refl.
  reflexivity.
Qed.

(** X8. When the arguments do not contain the two characters that start
    the flag, [set_size] adds the flag at their end, and the arguments then
    hold that one flag, with the given value. *)
Theorem set_size_adds_flag (f : ascii) (v : Z) (s : string) :
  Re.letter f -> (0 <= v)%Z ->
  contains (String "+" (String f "")) s = false ->
  Povray.set_size f v s = s ++ String "+" (String f "") ++ str_int v ++ " "
  /\ Re.flags f (Povray.set_size f v s) = [str_int v].
Proof. exact (set_size_absent f v s). Qed.

Lemma set_size_adds_flag_witness :
  Re.letter "W" /\ (0 <= 1024)%Z
  /\ contains "+W" "+A0.3 +H600 " = false
  /\ Povray.set_size "W" 1024 "+A0.3 +H600 " = "+A0.3 +H600 +W1024 "
  /\ Re.flags "W" (Povray.set_size "W" 1024 "+A0.3 +H600 ") = ["1024"].
Proof.
  split; [apply letter_W |]. split; [lia |]. split; [reflexivity |].
  apply (set_size_adds_flag "W" 1024 "+A0.3 +H600 ");
    [apply letter_W | lia | reflexivity].
Defined.

Lemma set_size_no_digits (f : ascii) (v : Z) (s : string) :
  contains (String "+" (String f "")) s = true ->
  Re.flags f s = [] ->
  Povray.set_size f v s = s.
Proof.
  intros Hs Hfl. unfold Povray.set_size. rewrite Hs.
  apply sub_unchanged. exact Hfl.
Qed.

(** X9. When the arguments contain the two characters that start the flag
    but no flag (no digit follows them), [set_size] returns the arguments
    as they are: the size is not put into them. *)
Theorem set_size_without_digits (f : ascii) (v : Z) (s : string) :
  contains (String "+" (String f "")) s = true ->
  Re.flags f s = [] ->
  Povray.set_size f v s = s.
Proof. exact (set_size_no_digits f v s). Qed.

Lemma set_size_without_digits_witness :
  contains "+W" "+WIDTH +A0.3 " = true
  /\ Re.flags "W" "+WIDTH +A0.3 " = []
  /\ Povray.set_size "W" 1024 "+WIDTH +A0.3 " = "+WIDTH +A0.3 ".
Proof.
  split; [reflexivity |]. split; [reflexivity |].
  apply (set_size_without_digits "W" 1024 "+WIDTH +A0.3 "); reflexivity.
Defined.

(** X10. Setting a size and then another one gives what setting the second
    one alone gives: in particular, setting the same size twice changes
    nothing the second time. *)
Theorem set_size_last_wins (f : ascii) (v1 v2 : Z) (s : string) :
  Re.letter f -> (0 <= v1)%Z ->
  Povray.set_size f v2 (Povray.set_size f v1 s) = Povray.set_size f v2 s.
Proof.
  intros Hf Hv1. destruct (str_int_digits v1 Hv1) as [Hds Hne].
  destruct (contains (String "+" (String f "")) s) eqn:Hs.
  - destruct (Re.flags f s) as [| d fl] eqn:Hfl.
    + rewrite (set_size_no_digits f v1 s Hs Hfl). reflexivity.
    + assert (Hfl' : Re.flags f s <> []) by (rewrite Hfl; discriminate).
      assert (Hs' : contains (String "+" (String f ""))
                      (Povray.set_size f v1 s) = true).
      { apply flags_contains. rewrite set_size_same by assumption.
        rewrite Hfl. discriminate. }
      unfold Povray.set_size at 1. rewrite Hs'.
      unfold Povray.set_size. rewrite Hs. unfold Re.sub.
      change (String "+" (String f "") ++ str_int v1)
        with (String "+" (String f (str_int v1))).
      change (String "+" (String f "") ++ str_int v2)
        with (String "+" (String f (str_int v2))).
      apply (sub_sub_length f Hf (str_int v1) (str_int v2)
               (String.length s)); auto.
  - destruct (set_size_absent f v1 s Hf Hv1 Hs) as [Eadd Hfl].
    assert (Hs' : contains (String "+" (String f ""))
                    (Povray.set_size f v1 s) = true)
      by (apply flags_contains; rewrite Hfl; discriminate).
    unfold Povray.set_size at 1. rewrite Hs', Eadd.
    unfold Povray.set_size. rewrite Hs. unfold Re.sub.
    change (s ++ String "+" (String f "") ++ str_int v1 ++ " ")
      with (s ++ String "+" (String f (str_int v1 ++ " "))).
    change (String "+" (String f "") ++ str_int v2)
      with (String "+" (String f (str_int v2))).
    rewrite (sub_app_length f _ (String.length s));
      [| reflexivity | apply not_eq_sym; exact (proj2 Hf) | lia].
    fold (Re.sub f (String "+" (String f (str_int v2))) s).
    rewrite (sub_unchanged f _ s (flags_absent f s Hs)).
    rewrite (sub_at_flag f _ _ (repl_starts_flag f (str_int v1) Hds Hne _)).
    rewrite drop_digits_app by (try assumption; reflexivity).
    rewrite !append_cons, ?append_assoc. reflexivity.
Qed.

Lemma set_size_last_wins_witness :
  Re.letter "W" /\ (0 <= 800)%Z
  /\ Povray.set_size "W" 1024 (Povray.set_size "W" 800 "+W640 +H480 ")
     = Povray.set_size "W" 1024 "+W640 +H480 ".
Proof.
  split; [apply letter_W |]. split; [lia |].
  apply (set_size_last_wins "W" 800 1024 "+W640 +H480 ");
    [apply letter_W | lia].
Defined.

(** X11. [render] of POV-Ray when the stored arguments contain neither
    ["+W"] nor ["+H"]: the width flag and then the height flag are added
    after them, and the arguments of the command hold one width flag and one
    height flag, with the given sizes. *)
Theorem povray_render_adds_size_flags `{PyLib}
  (params : gmap string string) (project : App.project) (prefix : string)
  (external : bool) (output : string) (width height : Z) :
  (0 <= width)%Z -> (0 <= height)%Z ->
  GetString params "PovRayPath" "" <> "" ->
  let stored := GetString params "PovRayParameters" "" in
  contains "+W" stored = false ->
  contains "+H" stored = false ->
  let before :=
    (if truthy (GetString params "Prefix" "")
     then GetString params "Prefix" "" ++ " "
     else GetString params "Prefix" "")
    ++ GetString params "PovRayPath" "" ++ " " in
  let args :=
    (if truthy stored then stored ++ " " else stored)
    ++ "+W" ++ str_int width ++ " " ++ "+H" ++ str_int height ++ " " in
  (Povray.render params project prefix external output width height).2
  = (let cmd :=
       before ++ (if truthy output then args ++ "+O" ++ output ++ " "
                  else args) ++ PageResult project in
     [PrintMessage ("Renderer command: " ++ cmd ++ nl); System cmd])
  /\ Re.flags "W" args = [str_int width]
  /\ Re.flags "H" args = [str_int height].
Proof.
  intros Hw Hh Hpath stored HW HH before args.
  apply truthy_nonempty in Hpath.
  destruct (str_int_digits width Hw) as [Hds Hne].
  set (args0 := if truthy stored then stored ++ " " else stored).
  assert (HW0 : contains "+W" args0 = false).
  { subst args0. destruct (truthy stored); [| exact HW].
    rewrite (contains_flag_app "W") by (auto; discriminate). reflexivity. }
  assert (HH0 : contains "+H" args0 = false).
  { subst args0. destruct (truthy stored); [| exact HH].
    rewrite (contains_flag_app "H") by (auto; discriminate). reflexivity. }
  destruct (set_size_absent "W" width args0 letter_W Hw HW0) as [E1 F1].
  assert (HH1 : contains "+H" (Povray.set_size "W" width args0) = false).
  { rewrite E1.
    change (args0 ++ "+W" ++ str_int width ++ " ")
      with (args0 ++ String "+" (String "W" (str_int width ++ " "))).
    rewrite (contains_flag_app "H") by (auto; discriminate).
    cbn [contains]. rewrite !prefix_flag.
    rewrite (contains_flag_digits "H") by assumption.
    cbn. destruct (str_int width ++ " "); reflexivity. }
  destruct (set_size_absent "H" height _ letter_H Hh HH1) as [E2 F2].
  assert (Eargs : args = Povray.set_size "H" height
                           (Povray.set_size "W" width args0)).
  { rewrite E2, E1. subst args. fold args0.
    rewrite !append_assoc. reflexivity. }
  split; [| split].
  - unfold Povray.render. rewrite Hpath. cbn [negb snd].
    fold stored. fold args0. rewrite <- Eargs.
    subst before. rewrite !append_assoc. reflexivity.
  - rewrite Eargs.
    rewrite set_size_other by (auto using letter_W, letter_H; discriminate).
    exact F1.
  - rewrite Eargs. exact F2.
Qed.

Lemma povray_render_adds_size_flags_witness :
  let params : gmap string string :=
    {[ "PovRayPath" := "povray"; "PovRayParameters" := "+A0.3" ]} in
  (0 <= 1024)%Z /\ (0 <= 768)%Z
  /\ GetString params "PovRayPath" "" <> ""
  /\ contains "+W" (GetString params "PovRayParameters" "") = false
  /\ contains "+H" (GetString params "PovRayParameters" "") = false
  /\ Re.flags "W" ("+A0.3 " ++ "+W" ++ str_int 1024 ++ " " ++ "+H"
                   ++ str_int 768 ++ " ") = [str_int 1024].
Proof.
  intros params.
  assert (Hpath : GetString params "PovRayPath" "" <> "")
    by (vm_compute; discriminate).
  split; [lia |]. split; [lia |]. split; [exact Hpath |].
  split; [reflexivity |]. split; [reflexivity |].
  exact (proj1 (proj2
    (povray_render_adds_size_flags (H := Sample.lib) params
       {| PageResult := "scene.pov" |} "" false "out.png" 1024 768
       ltac:(lia) ltac:(lia) Hpath eq_refl eq_refl))).
Defined.

(** ** Further properties of the materials *)

Lemma bind_not_key_error {A B : Type} (r : result A) (k : A -> result B) :
  r <> Raise KeyError ->
  (forall a, k a <> Raise KeyError) ->
  bind r k <> Raise KeyError.
Proof.
  intros Hr Hk. destruct r as [a | e]; cbn [bind]; [apply Hk |].
  intros [= ->]. apply Hr. reflexivity.
Qed.

Lemma getattr_not_key_error (v : pyval) (k : string) :
  getattr v k <> Raise KeyError.
Proof. intros E. apply getattr_raises in E. discriminate. Qed.

Lemma float_not_key_error `{PyLib} (v : pyval) : float v <> Raise KeyError.
Proof.
  intros E. apply float_raises in E as [E | [E | E]]; discriminate.
Qed.

Ltac not_key_error :=
  repeat first
    [ apply getattr_not_key_error
    | apply float_not_key_error
    | apply bind_not_key_error; [| intro]
    | match goal with
      | |- match ?f with _ => _ end <> _ => destruct f
      end
    | discriminate ].

Lemma rgb_fields_not_key_error `{PyLib} (c : pyval) :
  Cycles.rgb_fields c <> Raise KeyError.
Proof. unfold Cycles.rgb_fields. not_key_error. Qed.

Lemma glass_not_key_error `{PyLib} (name : string) (material : pyval) :
  Cycles._write_material_glass name material <> Raise KeyError.
Proof.
  unfold Cycles._write_material_glass. not_key_error.
Qed.

Lemma diffuse_not_key_error `{PyLib} (name : string) (material : pyval) :
  Cycles._write_material_diffuse name material <> Raise KeyError.
Proof.
  unfold Cycles._write_material_diffuse. not_key_error.
Qed.

Lemma mixed_not_key_error `{PyLib} (name : string) (material : pyval) :
  Cycles._write_material_mixed name material <> Raise KeyError.
Proof.
  unfold Cycles._write_material_mixed. cbv zeta. not_key_error.
Qed.

Lemma disney_not_key_error `{PyLib} (name : string) (material : pyval) :
  Cycles._write_material_disney name material <> Raise KeyError.
Proof.
  unfold Cycles._write_material_disney. cbv zeta. not_key_error.
Qed.

(** X1. The one exception that [_write_material_fallback] lets through is
    [OverflowError]: every other exception of its [try] block is caught by
    its handler. It does let it through: when the channel [r] of the
    default colour is an [int] beyond the range of the floats, [float]
    raises and the function fails. *)
Theorem write_material_fallback_only_overflows `{PyLib} (name : string)
  (material : pyval) :
  (forall e, Cycles._write_material_fallback name material = Raise e ->
             e = OverflowError)
  /\ (forall default_color z,
        getattr material "default_color" = Ok default_color ->
        getattr default_color "r" = Ok (PyInt z) ->
        (2 ^ 1024 - 2 ^ 970 <= Z.abs z)%Z ->
        Cycles._write_material_fallback name material = Raise OverflowError).
Proof.
  split.
  - intros e He.
    destruct (write_material_fallback_result name material)
      as [(red & grn & blu & E) | E]; congruence.
  - intros default_color z Hc Hr Hz.
    unfold Cycles._write_material_fallback, Cycles.fallback_channels,
      Cycles.fallback_channel.
    rewrite Hc. cbn [bind]. rewrite Hr. cbn [bind float].
    destruct (Z.ltb_spec (Z.abs z) (2 ^ 1024 - 2 ^ 970)) as [Hlt | _];
      [lia | reflexivity].
Qed.

Lemma native_material_dispatch `{PyLib} (name : string)
  (material : pyval) (tag : string) :
  getattr material "shadertype" = Ok (PyStr tag) ->
  In tag ["Glass"; "Disney"; "Diffuse"; "Mixed"] ->
  exists emitter,
    Cycles.MATERIALS !! tag = Some emitter
    /\ Cycles._write_material name material = (emitter name material, []).
Proof.
  intros Htag Hin. unfold Cycles._write_material. rewrite Htag. cbn [bind].
  cbn [In] in Hin. destruct Hin as [<- | [<- | [<- | [<- | []]]]].
  - exists Cycles._write_material_glass. split; [reflexivity |].
    change (Cycles.getitem Cycles.MATERIALS (PyStr "Glass"))
      with (Ok Cycles._write_material_glass). cbn [bind].
    pose proof (glass_not_key_error name material) as Hk.
    destruct (Cycles._write_material_glass name material) as [t | []];
      try reflexivity. contradiction Hk. reflexivity.
  - exists Cycles._write_material_disney. split; [reflexivity |].
    change (Cycles.getitem Cycles.MATERIALS (PyStr "Disney"))
      with (Ok Cycles._write_material_disney). cbn [bind].
    pose proof (disney_not_key_error name material) as Hk.
    destruct (Cycles._write_material_disney name material) as [t | []];
      try reflexivity. contradiction Hk. reflexivity.
  - exists Cycles._write_material_diffuse. split; [reflexivity |].
    change (Cycles.getitem Cycles.MATERIALS (PyStr "Diffuse"))
      with (Ok Cycles._write_material_diffuse). cbn [bind].
    pose proof (diffuse_not_key_error name material) as Hk.
    destruct (Cycles._write_material_diffuse name material) as [t | []];
      try reflexivity. contradiction Hk. reflexivity.
  - exists Cycles._write_material_mixed. split; [reflexivity |].
    change (Cycles.getitem Cycles.MATERIALS (PyStr "Mixed"))
      with (Ok Cycles._write_material_mixed). cbn [bind].
    pose proof (mixed_not_key_error name material) as Hk.
    destruct (Cycles._write_material_mixed name material) as [t | []];
      try reflexivity. contradiction Hk. reflexivity.
Qed.

(** X4. For a material of one of the four shader types that Cycles writes
    itself, [_write_material] returns what the function of the type gives,
    its exception included, and prints nothing: the fallback is never
    used. *)
Theorem native_materials_never_fall_back `{PyLib} (name : string)
  (material : pyval) (tag : string) :
  getattr material "shadertype" = Ok (PyStr tag) ->
  In tag ["Glass"; "Disney"; "Diffuse"; "Mixed"] ->
  exists emitter,
    Cycles.MATERIALS !! tag = Some emitter
    /\ Cycles._write_material name material = (emitter name material, []).
Proof. exact (native_material_dispatch name material tag). Qed.

Lemma native_materials_never_fall_back_witness :
  let material :=
    PyObj [ ("shadertype", PyStr "Diffuse");
            ("diffuse",
             PyObj [ ("color",
                      PyObj [ ("r", PyFloat 1); ("g", PyFloat 0);
                              ("b", PyFloat 0) ]) ]) ] in
  getattr material "shadertype" = Ok (PyStr "Diffuse")
  /\ In "Diffuse" ["Glass"; "Disney"; "Diffuse"; "Mixed"]
  /\ exists emitter,
       Cycles.MATERIALS (H := Sample.lib) !! "Diffuse" = Some emitter
       /\ Cycles._write_material (H := Sample.lib) "body" material
          = (emitter "body" material, []).
Proof.
  intros material. split; [reflexivity |].
  split; [cbn; tauto |].
  apply (native_materials_never_fall_back (H := Sample.lib) "body" material
           "Diffuse"); [reflexivity | cbn; tauto].
Defined.

Lemma in_unit_spec (a : R) : Cycles.in_unit a = true <-> (0 <= a <= 1)%R.
Proof.
  unfold Cycles.in_unit.
  destruct (Rle_dec 0 a), (Rle_dec a 1); split; intros; try discriminate;
    try reflexivity; lra.
Qed.

(** X2. [_write_material_fallback] on a material whose default colour has
    three numeric channels: when every channel lies between 0 and 1 the
    fragment carries them; when a channel lies outside, the fragment is
    white (no channel is clamped). *)
Theorem write_material_fallback_validates `{PyLib} (name : string)
  (material : pyval) (red grn blu : R) :
  Cycles.fallback_channel material "r" = Ok red ->
  Cycles.fallback_channel material "g" = Ok grn ->
  Cycles.fallback_channel material "b" = Ok blu ->
  ((0 <= red <= 1)%R /\ (0 <= grn <= 1)%R /\ (0 <= blu <= 1)%R ->
   Cycles._write_material_fallback name material
   = Ok (Cycles.fallback_text name (PyFloat red) (PyFloat grn)
           (PyFloat blu)))
  /\ (~ ((0 <= red <= 1)%R /\ (0 <= grn <= 1)%R /\ (0 <= blu <= 1)%R) ->
      Cycles._write_material_fallback name material
      = Ok (Cycles.fallback_text name (PyInt 1) (PyInt 1) (PyInt 1))).
Proof.
  intros Hr Hg Hb.
  unfold Cycles._write_material_fallback, Cycles.fallback_channels.
  rewrite Hr, Hg, Hb. cbn [bind]. split.
  - intros (Hred & Hgrn & Hblu).
    apply in_unit_spec in Hred, Hgrn, Hblu.
    rewrite Hred, Hgrn, Hblu. reflexivity.
  - intros Hout.
    destruct (Cycles.in_unit red) eqn:Ered;
      destruct (Cycles.in_unit grn) eqn:Egrn;
      destruct (Cycles.in_unit blu) eqn:Eblu; try reflexivity.
    exfalso. apply Hout. rewrite <- !in_unit_spec. auto.
Qed.

Lemma write_material_fallback_validates_witness :
  let material :=
    PyObj [ ("shadertype", PyStr "Carpaint");
            ("default_color",
             PyObj [ ("r", PyFloat (1 / 2)); ("g", PyFloat (3 / 2));
                     ("b", PyInt 0) ]) ] in
  Cycles.fallback_channel (H := Sample.lib) material "r" = Ok (1 / 2)%R
  /\ Cycles.fallback_channel (H := Sample.lib) material "g" = Ok (3 / 2)%R
  /\ Cycles.fallback_channel (H := Sample.lib) material "b" = Ok 0%R
  /\ Cycles._write_material_fallback (H := Sample.lib) "body" material
     = Ok (Cycles.fallback_text (H := Sample.lib) "body" (PyInt 1) (PyInt 1)
             (PyInt 1)).
Proof.
  intros material.
  split; [reflexivity |]. split; [reflexivity |]. split; [reflexivity |].
  apply (write_material_fallback_validates (H := Sample.lib) "body" material
           (1 / 2) (3 / 2) 0); try reflexivity.
  intros (_ & Hgrn & _). lra.
Defined.

(** X5. A Diffuse material whose colour has the channels [r], [g] and [b]
    is written without exception and without warning. *)
Theorem write_material_diffuse_well_formed `{PyLib} (name : string)
  (material diffuse color r g b : pyval) :
  getattr material "shadertype" = Ok (PyStr "Diffuse") ->
  getattr material "diffuse" = Ok diffuse ->
  getattr diffuse "color" = Ok color ->
  getattr color "r" = Ok r ->
  getattr color "g" = Ok g ->
  getattr color "b" = Ok b ->
  exists head tail,
    Cycles._write_material name material
    = (Ok (head ++ q (str r ++ ", " ++ str g ++ ", " ++ str b) ++ tail), []).
Proof.
  intros Htag Hd Hc Hr Hg Hb.
  destruct (native_material_dispatch name material "Diffuse" Htag)
    as (emitter & Hm & ->); [cbn; tauto |].
  change (Cycles.MATERIALS !! "Diffuse")
    with (Some Cycles._write_material_diffuse) in Hm.
  injection Hm as <-.
  unfold Cycles._write_material_diffuse, Cycles.rgb_fields.
  rewrite Hd. cbn [bind]. rewrite Hc. cbn [bind].
  rewrite Hr, Hg, Hb. cbn [bind].
  eexists (nl ++ "    <!-- Generated by FreeCAD - Object '" ++ name
           ++ "' -->" ++ nl ++ "    <shader name=" ++ q name ++ ">" ++ nl
           ++ "        <diffuse_bsdf name=" ++ q (name ++ "_bsdf")
           ++ " color="), _.
  cbn [join]. rewrite !append_assoc. reflexivity.
Qed.

Lemma write_material_diffuse_well_formed_witness :
  let color := PyObj [("r", PyInt 1); ("g", PyInt 0); ("b", PyInt 0)] in
  let diffuse := PyObj [("color", color)] in
  let material :=
    PyObj [("shadertype", PyStr "Diffuse"); ("diffuse", diffuse)] in
  getattr material "shadertype" = Ok (PyStr "Diffuse")
  /\ getattr material "diffuse" = Ok diffuse
  /\ getattr diffuse "color" = Ok color
  /\ getattr color "r" = Ok (PyInt 1)
  /\ getattr color "g" = Ok (PyInt 0)
  /\ getattr color "b" = Ok (PyInt 0)
  /\ exists head tail,
       Cycles._write_material (H := Sample.lib) "body" material
       = (Ok (head ++ q ("1" ++ ", " ++ "0" ++ ", " ++ "0") ++ tail), []).
Proof.
  intros color diffuse material.
  repeat (split; [reflexivity |]).
  apply (write_material_diffuse_well_formed (H := Sample.lib) "body"
           material diffuse color (PyInt 1) (PyInt 0) (PyInt 0));
    reflexivity.
Defined.

(** X6. A pass-through material written for Cycles: [_write_material]
    returns what [format] makes of the indented template, without warning;
    when [format] raises [KeyError] (a field of the template is neither [n]
    nor [c]), it warns that the material is unknown and returns the
    fallback fragment, which is white when the default colour has no
    attribute [default_color] of its own (otherwise [float] can still
    overflow on a channel of that attribute); any other exception of
    [format] reaches the caller. *)
Theorem write_material_passthrough_cycles `{PyLib} (name : string)
  (material passthrough c : pyval) (template : string) :
  getattr material "shadertype" = Ok (PyStr "Passthrough") ->
  getattr material "passthrough" = Ok passthrough ->
  getattr passthrough "renderer" = Ok (PyStr "Cycles") ->
  getattr passthrough "string" = Ok (PyStr template) ->
  getattr material "default_color" = Ok c ->
  let formatted :=
    py_format (indent template "    ") [] [("n", PyStr name); ("c", c)] in
  (forall text, formatted = Ok text ->
                Cycles._write_material name material = (Ok text, []))
  /\ (formatted = Raise KeyError ->
      (exists red grn blu,
         Cycles._write_material name material
         = (Ok (Cycles.fallback_text name red grn blu),
            [ PrintWarning ("'" ++ name ++ "' - Material 'Passthrough' "
                            ++ "unknown by renderer, using fallback material"
                            ++ nl) ]))
      \/ Cycles._write_material name material
         = (Raise OverflowError,
            [ PrintWarning ("'" ++ name ++ "' - Material 'Passthrough' "
                            ++ "unknown by renderer, using fallback material"
                            ++ nl) ]))
  /\ (formatted = Raise KeyError ->
      raises (getattr c "default_color") = true ->
      Cycles._write_material name material
      = (Ok (Cycles.fallback_text name (PyInt 1) (PyInt 1) (PyInt 1)),
         [ PrintWarning ("'" ++ name ++ "' - Material 'Passthrough' "
                         ++ "unknown by renderer, using fallback material"
                         ++ nl) ]))
  /\ (forall e, formatted = Raise e -> e <> KeyError ->
                Cycles._write_material name material = (Raise e, [])).
Proof.
  intros Htag Hp Hr Hs Hc formatted.
  assert (Hrun : Cycles._write_material_passthrough name material = formatted).
  { unfold Cycles._write_material_passthrough.
    rewrite Hp. cbn [bind]. rewrite Hr. cbn [bind].
    cbn [Cycles.is_str String.eqb Ascii.eqb Bool.eqb negb].
    rewrite Hs. cbn [bind]. rewrite Hc. reflexivity. }
  unfold Cycles._write_material. rewrite Htag. cbn [bind].
  change (Cycles.getitem Cycles.MATERIALS (PyStr "Passthrough"))
    with (Ok Cycles._write_material_passthrough).
  cbn [bind]. rewrite Hrun. split; [| split; [| split]].
  - intros text ->. reflexivity.
  - intros ->. unfold Cycles.unknown_material. rewrite Htag, Hc.
    cbn [bind].
    destruct (write_material_fallback_result name c)
      as [(r & g & b & ->) | ->]; eauto.
  - intros -> Hnone. unfold Cycles.unknown_material. rewrite Htag, Hc.
    cbn [bind].
    rewrite (write_material_fallback_on_colour name c Hnone). reflexivity.
  - intros e -> He. destruct e; try reflexivity. contradiction He.
    reflexivity.
Qed.

Lemma write_material_passthrough_cycles_witness :
  let c := PyObj [("r", PyInt 1); ("g", PyInt 0); ("b", PyInt 0)] in
  let passthrough :=
    PyObj [ ("renderer", PyStr "Cycles");
            ("string", PyStr "<shader name='{n}' tint='{c.r}'/>") ] in
  let material :=
    PyObj [ ("shadertype", PyStr "Passthrough"); ("default_color", c);
            ("passthrough", passthrough) ] in
  getattr material "shadertype" = Ok (PyStr "Passthrough")
  /\ getattr material "passthrough" = Ok passthrough
  /\ getattr passthrough "renderer" = Ok (PyStr "Cycles")
  /\ getattr passthrough "string"
     = Ok (PyStr "<shader name='{n}' tint='{c.r}'/>")
  /\ getattr material "default_color" = Ok c
  /\ Cycles._write_material (H := Sample.lib) "body" material
     = (Ok "    <shader name='body' tint='1'/>", []).
Proof.
  intros c passthrough material.
  repeat (split; [reflexivity |]).
  apply (write_material_passthrough_cycles (H := Sample.lib) "body" material
           passthrough c "<shader name='{n}' tint='{c.r}'/>");
    reflexivity.
Defined.

(** X7. A Disney material with all its attributes, whose
    [clearcoatgloss] is not a number: the exception of [float] reaches the
    caller of [_write_material]. *)
Theorem write_material_disney_gloss_error `{PyLib} (name : string)
  (material disney gloss : pyval) (e : exn) :
  getattr material "shadertype" = Ok (PyStr "Disney") ->
  getattr material "disney" = Ok disney ->
  Forall (fun k => raises (getattr disney k) = false)
    [ "basecolor"; "subsurface"; "metallic"; "specular"; "speculartint";
      "roughness"; "anisotropic"; "sheen"; "sheentint"; "clearcoat" ] ->
  getattr disney "clearcoatgloss" = Ok gloss ->
  float gloss = Raise e ->
  Cycles._write_material name material = (Raise e, []).
Proof.
  intros Htag Hd Hall Hgloss He.
  destruct (native_material_dispatch name material "Disney" Htag)
    as (emitter & Hm & ->); [cbn; tauto |].
  change (Cycles.MATERIALS !! "Disney")
    with (Some Cycles._write_material_disney) in Hm.
  injection Hm as <-. f_equal.
  unfold Cycles._write_material_disney. cbv zeta. rewrite Hd. cbn [bind].
  repeat match goal with
         | Hk : Forall _ (?k :: _) |- _ =>
             let Hhead := fresh "Hhead" in
             pose proof (Forall_inv Hk) as Hhead;
             apply Forall_inv_tail in Hk;
             cbv beta in Hhead;
             destruct (getattr disney k); [| discriminate Hhead];
             cbn [bind]; clear Hhead
         end.
  rewrite Hgloss. cbn [bind]. rewrite He. reflexivity.
Qed.

Lemma write_material_disney_gloss_error_witness :
  let color := PyObj [("r", PyInt 1); ("g", PyInt 0); ("b", PyInt 0)] in
  let half := PyFloat (1 / 2) in
  let disney :=
    PyObj [ ("basecolor", color); ("subsurface", half); ("metallic", half);
            ("specular", half); ("speculartint", half);
            ("roughness", half); ("anisotropic", half); ("sheen", half);
            ("sheentint", half); ("clearcoat", half);
            ("clearcoatgloss", PyNone) ] in
  let material :=
    PyObj [("shadertype", PyStr "Disney"); ("disney", disney)] in
  getattr material "shadertype" = Ok (PyStr "Disney")
  /\ getattr material "disney" = Ok disney
  /\ getattr disney "clearcoatgloss" = Ok PyNone
  /\ float (H := Sample.lib) PyNone = Raise TypeError
  /\ Cycles._write_material (H := Sample.lib) "body" material
     = (Raise TypeError, []).
Proof.
  intros color half disney material.
  repeat (split; [reflexivity |]).
  apply (write_material_disney_gloss_error (H := Sample.lib) "body" material
           disney PyNone TypeError); try reflexivity.
  repeat constructor.
Defined.

(** ** Arguments without effect *)

(** X18. What the functions of the POV-Ray plugin do not use: the power of
    a point light and of an area light, the alpha of an object, the
    turbidity of the sky, the rotation of the camera placement, and the
    flag [external] of [render]. *)
Theorem povray_arguments_without_effect `{PyLib} :
  (forall name pos color power1 power2,
     Povray.write_pointlight name pos color power1
     = Povray.write_pointlight name pos color power2)
  /\ (forall name pos size_u size_v color power1 power2,
        Povray.write_arealight name pos size_u size_v color power1
        = Povray.write_arealight name pos size_u size_v color power2)
  /\ (forall name mesh color alpha1 alpha2,
        Povray.write_object name mesh color alpha1
        = Povray.write_object name mesh color alpha2)
  /\ (forall name direction distance turbidity1 turbidity2 h,
        Povray.write_sunskylight name direction distance turbidity1 h
        = Povray.write_sunskylight name direction distance turbidity2 h)
  /\ (forall name base rotation1 rotation2 multVec1 multVec2 updir target,
        Povray.write_camera name
          {| FreeCAD.Base := base; FreeCAD.Rotation := rotation1;
             FreeCAD.placement_multVec := multVec1 |} updir target
        = Povray.write_camera name
            {| FreeCAD.Base := base; FreeCAD.Rotation := rotation2;
               FreeCAD.placement_multVec := multVec2 |} updir target)
  /\ (forall params project prefix external1 external2 output width height,
        Povray.render params project prefix external1 output width height
        = Povray.render params project prefix external2 output width height).
Proof. repeat split. Qed.

(** X19. What the functions of the Cycles plugin do not use: the up
    direction and the target of the camera, the distance of the sun, and
    the result of [sunlight]. *)
Theorem cycles_arguments_without_effect `{PyLib} :
  (forall name pos updir1 target1 updir2 target2 fov,
     Cycles.write_camera name pos updir1 target1 fov
     = Cycles.write_camera name pos updir2 target2 fov)
  /\ (forall sunlight1 sunlight2 name direction distance1 distance2
             turbidity albedo h,
        Cycles.write_sunskylight sunlight1 name direction distance1
          turbidity albedo h
        = Cycles.write_sunskylight sunlight2 name direction distance2
            turbidity albedo h).
Proof.
  split; [reflexivity |].
  intros. unfold Cycles.write_sunskylight.
  destruct (Cycles.sunsky_angles direction h) as [[[theta phi] h'] | e];
    reflexivity.
Qed.

(** ** Further properties of the sun and sky lights *)

Lemma Length_null : FreeCAD.Length (FreeCAD.mkVector 0 0 0) = 0%R.
Proof.
  cbv [FreeCAD.Length FreeCAD.x FreeCAD.y FreeCAD.z].
  replace (0 * 0 + 0 * 0 + 0 * 0)%R with 0%R by ring. apply sqrt_0.
Qed.

Lemma atan2_bound (a b : R) : (- PI < atan2 a b <= PI)%R.
Proof.
  pose proof PI_RGT_0 as Hpi. unfold atan2.
  destruct (Rlt_dec 0 b) as [Hb | Hb].
  { pose proof (atan_bound (a / b)). lra. }
  destruct (Rlt_dec b 0) as [Hb' | Hb'].
  - pose proof (atan_bound (a / b)) as Hbound.
    assert (Hinv : (/ b < 0)%R) by (apply Rinv_lt_0_compat; assumption).
    destruct (Rle_dec 0 a) as [Ha | Ha].
    + assert (Hq : (a / b <= 0)%R) by (unfold Rdiv; nra).
      assert (Hat : (atan (a / b) <= 0)%R).
      { destruct (Rle_lt_or_eq_dec _ _ Hq) as [Hlt | ->].
        - apply atan_increasing in Hlt. rewrite atan_0 in Hlt. lra.
        - rewrite atan_0. lra. }
      lra.
    + assert (Hq : (0 < a / b)%R) by (unfold Rdiv; nra).
      apply atan_increasing in Hq. rewrite atan_0 in Hq. lra.
  - destruct (Rlt_dec 0 a); [lra |]. destruct (Rlt_dec a 0); lra.
Qed.

(** X13. A sun direction of length zero: [write_sunskylight] of Cycles stops
    at its assertion. *)
Theorem cycles_sunskylight_null_direction `{PyLib}
  (sunlight : R -> R -> pyval) (name : string) (direction : FreeCAD.ref)
  (distance turbidity albedo : R) (h : gmap FreeCAD.ref FreeCAD.Vector)
  (d : FreeCAD.Vector) :
  h !! direction = Some d ->
  FreeCAD.Length d = 0%R ->
  Cycles.write_sunskylight sunlight name direction distance turbidity albedo h
  = Raise AssertionError.
Proof.
  intros Hd HL. unfold Cycles.write_sunskylight, Cycles.sunsky_angles,
    FreeCAD.read.
  rewrite Hd. cbn [bind].
  destruct (Req_dec_T (FreeCAD.Length d) 0) as [_ | N]; [| contradiction].
  reflexivity.
Qed.

Lemma cycles_sunskylight_null_direction_witness :
  ({[ 0%nat := FreeCAD.mkVector 0 0 0 ]} : gmap FreeCAD.ref FreeCAD.Vector)
    !! 0%nat = Some (FreeCAD.mkVector 0 0 0)
  /\ FreeCAD.Length (FreeCAD.mkVector 0 0 0) = 0%R
  /\ Cycles.write_sunskylight (H := Sample.lib) Sample.sunlight "sun" 0%nat
       1 2 (3 / 10) {[ 0%nat := FreeCAD.mkVector 0 0 0 ]}
     = Raise AssertionError.
Proof.
  split; [apply lookup_singleton_eq |]. split; [apply Length_null |].
  apply (cycles_sunskylight_null_direction (H := Sample.lib) Sample.sunlight
           "sun" 0%nat 1 2 (3 / 10) _ (FreeCAD.mkVector 0 0 0)).
  - apply lookup_singleton_eq.
  - apply Length_null.
Defined.

(** X14. The angles that [write_sunskylight] of Cycles emits for a
    direction that is not null: the elevation lies between [-PI/2] and
    [PI/2], the rotation between [-PI] (excluded) and [PI]. *)
Theorem cycles_sunskylight_angle_bounds (direction : FreeCAD.ref)
  (h : gmap FreeCAD.ref FreeCAD.Vector) (d : FreeCAD.Vector) :
  h !! direction = Some d ->
  FreeCAD.Length d <> 0%R ->
  exists theta phi h',
    Cycles.sunsky_angles direction h = Ok (theta, phi, h')
    /\ (- (PI / 2) <= theta <= PI / 2)%R
    /\ (- PI < phi <= PI)%R.
Proof.
  intros Hd HL. rewrite (cycles_sunsky_angles_run direction h d Hd HL).
  eexists _, _, _. split; [reflexivity |].
  split; [apply asin_bound | apply atan2_bound].
Qed.

Lemma cycles_sunskylight_angle_bounds_witness :
  ({[ 0%nat := FreeCAD.mkVector 0 0 2 ]} : gmap FreeCAD.ref FreeCAD.Vector)
    !! 0%nat = Some (FreeCAD.mkVector 0 0 2)
  /\ FreeCAD.Length (FreeCAD.mkVector 0 0 2) <> 0%R
  /\ exists theta phi h',
       Cycles.sunsky_angles 0%nat {[ 0%nat := FreeCAD.mkVector 0 0 2 ]}
       = Ok (theta, phi, h')
       /\ (- (PI / 2) <= theta <= PI / 2)%R
       /\ (- PI < phi <= PI)%R.
Proof.
  assert (HL : FreeCAD.Length (FreeCAD.mkVector 0 0 2) <> 0%R)
    by (rewrite Length_axis; lra).
  split; [apply lookup_singleton_eq |]. split; [exact HL |].
  apply (cycles_sunskylight_angle_bounds 0%nat _ (FreeCAD.mkVector 0 0 2));
    [apply lookup_singleton_eq | exact HL].
Defined.



Lemma cycles_sunskylight_keeps_vectors_witness :
  ({[ 0%nat := FreeCAD.mkVector 0 0 2 ]} : gmap FreeCAD.ref FreeCAD.Vector)
    !! 0%nat = Some (FreeCAD.mkVector 0 0 2)
  /\ FreeCAD.Length (FreeCAD.mkVector 0 0 2) <> 0%R
  /\ exists text h',
       Cycles.write_sunskylight (H := Sample.lib) Sample.sunlight "sun"
         0%nat 10 2 (3 / 10) {[ 0%nat := FreeCAD.mkVector 0 0 2 ]}
       = Ok (text, h')
       /\ forall l v,
            ({[ 0%nat := FreeCAD.mkVector 0 0 2 ]}
               : gmap FreeCAD.ref FreeCAD.Vector) !! l = Some v ->
            h' !! l = Some v.
Proof.
  assert (HL : FreeCAD.Length (FreeCAD.mkVector 0 0 2) <> 0%R)
    by (rewrite Length_axis; lra).
  split; [apply lookup_singleton_eq |]. split; [exact HL |].
  apply (cycles_sunskylight_keeps_vectors (H := Sample.lib) Sample.sunlight
           "sun" 0%nat 10 2 (3 / 10) _ (FreeCAD.mkVector 0 0 2));
    [apply lookup_singleton_eq | exact HL].
Defined.

(** ** Further properties of the area light *)

(** X17. [write_arealight] of Cycles never fails for a transparent light,
    whatever its sizes; for an opaque light of area zero it raises
    [ZeroDivisionError]. *)
Theorem cycles_arealight_zero_area `{PyLib} (name : string)
  (pos : FreeCAD.placement) (size_u size_v : R) (color : R * R * R)
  (power : R) :
  (size_u * size_v = 0)%R ->
  raises (Cycles.write_arealight name pos size_u size_v color power true)
  = false
  /\ Cycles.write_arealight name pos size_u size_v color power false
     = Raise ZeroDivisionError.
Proof.
  intros Harea.
  unfold Cycles.write_arealight, Cycles.emitted_strength, Cycles.strength,
    div.
  rewrite (mul_zero _ _ Harea).
  split; [reflexivity |].
  destruct (Req_dec_T 0 0) as [_ | N]; [| contradiction].
  reflexivity.
Qed.

Lemma cycles_arealight_zero_area_witness :
  (0 * 3 = 0)%R
  /\ raises (Cycles.write_arealight (H := Sample.lib) "lamp"
              Sample.placement_at_origin 0 3 (1, 1, 1)%R 30 true) = false
  /\ Cycles.write_arealight (H := Sample.lib) "lamp"
       Sample.placement_at_origin 0 3 (1, 1, 1)%R 30 false
     = Raise ZeroDivisionError.
Proof.
  split; [lra |].
  apply (cycles_arealight_zero_area (H := Sample.lib)). lra.
Defined.

(** X20. The area of an opaque light is a product of floats: when it is at
    most half the smallest positive float it is rounded to zero, and
    [write_arealight] of Cycles raises [ZeroDivisionError] although neither
    size is zero. *)
Theorem cycles_arealight_area_underflow `{PyLib} (name : string)
  (pos : FreeCAD.placement) (size_u size_v : R) (color : R * R * R)
  (power : R) :
  (Rabs (size_u * size_v) <= / 2 ^ 1075)%R ->
  Cycles.write_arealight name pos size_u size_v color power false
  = Raise ZeroDivisionError.
Proof.
  intros Harea.
  unfold Cycles.write_arealight, Cycles.emitted_strength, Cycles.strength,
    div, mul.
  destruct (Rle_dec (Rabs (size_u * size_v)) (/ 2 ^ 1075)) as [_ | N];
    [| contradiction].
  destruct (Req_dec_T 0 0) as [_ | N]; [| contradiction].
  reflexivity.
Qed.

Lemma cycles_arealight_area_underflow_witness :
  (Rabs (/ 2 ^ 538 * / 2 ^ 538) <= / 2 ^ 1075)%R
  /\ (/ 2 ^ 538 <> 0)%R
  /\ Cycles.write_arealight (H := Sample.lib) "lamp"
       Sample.placement_at_origin (/ 2 ^ 538) (/ 2 ^ 538) (1, 1, 1)%R 30
       false
     = Raise ZeroDivisionError.
Proof.
  assert (Hpos : forall n : nat, (0 < 2 ^ n)%R)
    by (intros n; apply pow_lt; lra).
  assert (Harea : (Rabs (/ 2 ^ 538 * / 2 ^ 538) <= / 2 ^ 1075)%R).
  { rewrite <- Rinv_mult, <- pow_add.
    rewrite Rabs_pos_eq by (apply Rlt_le, Rinv_0_lt_compat, Hpos).
    apply Rinv_le_contravar; [apply Hpos |].
    apply Rle_pow; [lra | lia]. }
  split; [exact Harea |].
  split; [apply Rinv_neq_0_compat, Rgt_not_eq, Hpos |].
  apply (cycles_arealight_area_underflow (H := Sample.lib) "lamp"
           Sample.placement_at_origin (/ 2 ^ 538) (/ 2 ^ 538) (1, 1, 1)%R 30
           Harea).
Defined.
